(** * Verification of the role-migration script and the Markdown file service

    This development embeds two Python programs of the repository:
    - [migrate-roles-to-template.py] (class [RoleMigrator]), a text
      migration that patches standard sections into role documents;
    - [server.py] (class [FileServerHandler]), a small HTTP file service.

    Python [str] values are lists of Unicode code points, files on disk are a
    finite map from paths to nodes, and the HTTP handlers produce the list of
    calls they make on the response plus the way they finish. *)

From stdpp Require Import gmap list strings sorting.

Set Warnings "-register-all".

(** ** Python strings *)

Module PyStr.

(** A [str] is a sequence of code points. *)
Abbreviation char := N (only parsing).
Abbreviation str := (list N) (only parsing).

(** Literals are written as UTF-8 text and decoded to code points. *)
Fixpoint utf8_decode (bs : list N) : str :=
  match bs with
  | [] => []
  | b0 :: t0 =>
    if (b0 <? 128)%N then b0 :: utf8_decode t0
    else if (b0 <? 224)%N then
      match t0 with
      | b1 :: t1 => ((b0 - 192) * 64 + (b1 - 128))%N :: utf8_decode t1
      | _ => []
      end
    else if (b0 <? 240)%N then
      match t0 with
      | b1 :: b2 :: t2 =>
        ((b0 - 224) * 4096 + (b1 - 128) * 64 + (b2 - 128))%N :: utf8_decode t2
      | _ => []
      end
    else
      match t0 with
      | b1 :: b2 :: b3 :: t3 =>
        ((b0 - 240) * 262144 + (b1 - 128) * 4096 + (b2 - 128) * 64 + (b3 - 128))%N
          :: utf8_decode t3
      | _ => []
      end
  end.

Definition py (s : string) : str :=
  utf8_decode (map Ascii.N_of_ascii (String.list_ascii_of_string s)).
Arguments py : simpl never.

Definition newline : char := 10%N.
Definition dquote : str := [34%N].

(** [str.isspace] on one code point, which is also the class [\s] of [re] on
    [str] patterns. *)
Definition isspace (c : char) : bool :=
  ((9 <=? c) && (c <=? 13) || (28 <=? c) && (c <=? 32)
   || (c =? 133) || (c =? 160) || (c =? 5760)
   || (8192 <=? c) && (c <=? 8202)
   || (c =? 8232) || (c =? 8233) || (c =? 8239) || (c =? 8287)
   || (c =? 12288))%N.

(** [s.startswith(p)] *)
Fixpoint startswith (s p : str) {struct p} : bool :=
  match p, s with
  | [], _ => true
  | _ :: _, [] => false
  | a :: p', b :: s' => (a =? b)%N && startswith s' p'
  end.

(** [t in s] *)
Fixpoint str_in (t s : str) : bool :=
  startswith s t ||
  match s with
  | [] => false
  | _ :: s' => str_in t s'
  end.

(** [s.replace(old, new)]: every occurrence of [old], found left to right
    without overlap, becomes [new].  [skip] counts the characters of the
    occurrence just replaced that the scan still has to step over. *)
Fixpoint replace_from (old new : str) (skip : nat) (s : str) : str :=
  match s with
  | [] =>
    match old, skip with
    | [], O => new
    | _, _ => []
    end
  | c :: s' =>
    match skip with
    | S k => replace_from old new k s'
    | O =>
      if startswith s old
      then new ++ match old with
                  | [] => c :: replace_from old new 0 s'
                  | _ :: _ => replace_from old new (length old - 1) s'
                  end
      else c :: replace_from old new 0 s'
    end
  end.

Definition replace (s old new : str) : str := replace_from old new 0 s.

(** [s.lstrip()], [s.rstrip()] and [s.strip()] without argument. *)
Fixpoint lstrip (s : str) : str :=
  match s with
  | c :: s' => if isspace c then lstrip s' else s
  | [] => []
  end.

Definition rstrip (s : str) : str := reverse (lstrip (reverse s)).

Definition strip (s : str) : str := rstrip (lstrip s).

(** [sep.join(l)] *)
Fixpoint join (sep : str) (l : list str) : str :=
  match l with
  | [] => []
  | [x] => x
  | x :: l' => x ++ sep ++ join sep l'
  end.

(** [s.split("\n")]: the lines of [s], without their terminators. *)
Fixpoint split_lines_from (cur : str) (s : str) : list str :=
  match s with
  | [] => [cur]
  | c :: s' =>
    if (c =? newline)%N then cur :: split_lines_from [] s'
    else split_lines_from (cur ++ [c]) s'
  end.

Definition split_lines (s : str) : list str := split_lines_from [] s.

(** Comparison of strings, code point by code point ([a <= b] in Python). *)
Fixpoint str_le (a b : str) : bool :=
  match a, b with
  | [], _ => true
  | _ :: _, [] => false
  | x :: a', y :: b' => (x <? y)%N || (x =? y)%N && str_le a' b'
  end.

End PyStr.

Import PyStr.

(** ** Regular expressions of the programs

    The three patterns in use never match the empty string, so a scan either
    finds a match of positive length at the current position or moves one
    character on.  A matcher returns the length of the match that starts at
    the head of its argument. *)

Module PyRe.

(** Length of the longest prefix whose characters all satisfy [p]. *)
Fixpoint span_len (p : char → bool) (s : str) : nat :=
  match s with
  | c :: s' => if p c then S (span_len p s') else 0
  | [] => 0
  end.

(** [.] without [re.DOTALL]: any character but the line feed. *)
Definition dot (c : char) : bool := negb (c =? newline)%N.

(** The pattern [8\.\s+.*]: greedy white space, then the rest of the line on
    which the white space ends. *)
Definition match_item8 (s : str) : option nat :=
  match s with
  | a :: b :: rest =>
    if (a =? 56)%N && (b =? 46)%N then
      let ws := span_len isspace rest in
      match ws with
      | O => None
      | S _ => Some (2 + ws + span_len dot (drop ws rest))
      end
    else None
  | _ => None
  end.

(** [re.sub(pattern, repl, s)] for a replacement text without escapes: every
    match, left to right, is replaced. *)
Fixpoint re_sub_from (m : str → option nat) (repl : str) (skip : nat) (s : str) : str :=
  match s with
  | [] => []
  | c :: s' =>
    match skip with
    | S k => re_sub_from m repl k s'
    | O =>
      match m s with
      | Some (S n) => repl ++ re_sub_from m repl n s'
      | _ => c :: re_sub_from m repl 0 s'
      end
    end
  end.

Definition re_sub (m : str → option nat) (repl s : str) : str :=
  re_sub_from m repl 0 s.

(** [re.split] for a pattern that is one capturing group: the pieces between
    the matches alternate with the matched texts. *)
Fixpoint re_split_from (m : str → option nat) (skip : nat) (cur : str) (s : str) : list str :=
  match s with
  | [] => [cur]
  | c :: s' =>
    match skip with
    | S k => re_split_from m k cur s'
    | O =>
      match m s with
      | Some (S n) => cur :: take (S n) s :: re_split_from m n [] s'
      | _ => re_split_from m 0 (cur ++ [c]) s'
      end
    end
  end.

Definition re_split (m : str → option nat) (s : str) : list str :=
  re_split_from m 0 [] s.

Section Word.
(** The class [\w] of [re] on [str] patterns is the Unicode notion of a
    word character; it is kept abstract. *)
Variable isword : char → bool.

(** The class [[\w-]]. *)
Definition word_or_hyphen (c : char) : bool := isword c || (c =? 45)%N.

(** The pattern [(### @[\w-]+)]. *)
Definition match_role_heading (s : str) : option nat :=
  if startswith s (py "### @") then
    match span_len word_or_hyphen (drop 5 s) with
    | O => None
    | S n => Some (5 + S n)
    end
  else None.

(** [re.search(r'@([\w-]+)', s)] followed by [.group(1)]; [None] when
    nothing matches. *)
Fixpoint search_role_name (s : str) : option str :=
  match s with
  | [] => None
  | c :: s' =>
    if (c =? 64)%N && negb (span_len word_or_hyphen s' =? 0)
    then Some (take (span_len word_or_hyphen s') s')
    else search_role_name s'
  end.
End Word.

End PyRe.

Import PyRe.

(** ** Files on disk *)

Module Disk.

(** Contents are kept as decoded text; a path is the string handed to the
    operating system. *)
Inductive node :=
  | File (text : str)
  | Dir.

Abbreviation fs := (gmap (list N) node) (only parsing).

Inductive exn :=
  | FileNotFoundError
  | IsADirectoryError
  | AttributeError
  | TypeError
  | IndexError
  | JSONDecodeError
  | UnicodeEncodeError.

(** A computation either returns or raises. *)
Inductive result (A : Type) :=
  | Ok (a : A)
  | Raise (e : exn).
Arguments Ok {A} a.
Arguments Raise {A} e.

#[global] Instance result_ret : MRet result := @Ok.
#[global] Instance result_bind : MBind result := λ A B k r,
  match r with
  | Ok a => k a
  | Raise e => Raise e
  end.

(** [os.path.exists(p)] *)
Definition exists_ (d : fs) (p : str) : bool := bool_decide (is_Some (d !! p)).

(** What text mode does to the line ends of a file as it is read (universal
    newlines): a carriage return with the line feed after it, and a carriage
    return alone, both become one line feed. *)
Fixpoint universal_newlines (s : str) : str :=
  match s with
  | [] => []
  | c :: s' =>
    if (c =? 13)%N then
      newline :: match s' with
                 | c' :: s'' => if (c' =? newline)%N then universal_newlines s''
                                else universal_newlines s'
                 | [] => universal_newlines s'
                 end
    else c :: universal_newlines s'
  end.

(** [open(p, 'r').read()]: the text of the file, its line ends translated. *)
Definition read_text (d : fs) (p : str) : result str :=
  match d !! p with
  | Some (File t) => Ok (universal_newlines t)
  | Some Dir => Raise IsADirectoryError
  | None => Raise FileNotFoundError
  end.

(** [open(p, 'rb').read()]: the content as it is stored. *)
Definition read_bytes (d : fs) (p : str) : result str :=
  match d !! p with
  | Some (File t) => Ok t
  | Some Dir => Raise IsADirectoryError
  | None => Raise FileNotFoundError
  end.

(** [open(p, 'w')]: the file is emptied, or created, as it is opened.  The
    program creates one file only, the report in its base directory; the
    directory of [p] is taken to be there. *)
Definition open_w (d : fs) (p : str) : result fs :=
  match d !! p with
  | Some Dir => Raise IsADirectoryError
  | _ => Ok (<[p := File []]> d)
  end.

(** [with open(p, 'w') as f: f.write(text)]; a line feed is written as it is
    (POSIX). *)
Definition write_text (d : fs) (p text : str) : result fs :=
  d' ← open_w d p;
  Ok (<[p := File text]> d').

(** A code point that UTF-8 refuses: a surrogate, which a [str] can hold
    (JSON [\ud800]) but no file can. *)
Definition surrogate (c : char) : bool := (55296 <=? c)%N && (c <=? 57343)%N.

(** [s.encode('utf-8')] succeeds. *)
Definition encodable (s : str) : bool := forallb (λ c, negb (surrogate c)) s.

End Disk.

Import Disk.


(** ** The migration script: class [RoleMigrator] *)

Module Migrator.

Definition base_path : str := py "/opt/1000-AI-Roles".

(** An entry of [self.roles].  Every entry of the table has the four keys, so
    a lookup of a key with a default falls back to the default exactly when
    the role itself is unknown. *)
Record role_info := {
  name : str;
  definition : str;
  output : str;
  next_role : str
}.

Definition roles : gmap str role_info :=
  list_to_map [
    (py "project-initiator",
     {| name := py "@project-initiator";
        definition := py "Project Discovery Specialist who transforms vague ideas into actionable project briefs";
        output := py "project-brief.md";
        next_role := py "@requirements-collector" |});
    (py "requirements-collector",
     {| name := py "@requirements-collector";
        definition := py "Requirements Collection Specialist who gathers comprehensive, clear, and actionable requirements";
        output := py "user-stories.md";
        next_role := py "@mvp-specialist" |});
    (py "mvp-specialist",
     {| name := py "@mvp-specialist";
        definition := py "MVP Strategy & Refinement Specialist who identifies minimum viable products";
        output := py "mvp-requirements.md";
        next_role := py "@architect" |});
    (py "architect",
     {| name := py "@architect";
        definition := py "Solution Architect (Archie) who designs technology solutions using TOGAF principles";
        output := py "architecture.md";
        next_role := py "@planner" |});
    (py "planner",
     {| name := py "@planner";
        definition := py "Task Planning Specialist who creates hierarchical task structures";
        output := py "task-list.json";
        next_role := py "@pseudo-coder" |});
    (py "pseudo-coder",
     {| name := py "@pseudo-coder";
        definition := py "Logic Designer who translates implementation tasks into clear pseudo code";
        output := py "pseudo-code.md";
        next_role := py "@tdd-evidence-specialist" |});
    (py "tdd-evidence-specialist",
     {| name := py "@tdd-evidence-specialist";
        definition := py "TDD Evidence Specialist who proves systems work through comprehensive tests";
        output := py "evidence-tests.md";
        next_role := py "@coder" |});
    (py "coder",
     {| name := py "@coder";
        definition := py "Code Implementation Specialist who writes clean, efficient, modular code";
        output := py "working code files";
        next_role := py "@documentation-writer" |});
    (py "documentation-writer",
     {| name := py "@documentation-writer";
        definition := py "Evidence-Based Documentation Specialist who creates measurable, effective documentation";
        output := py "user guides, API docs";
        next_role := py "@git-mate" |});
    (py "git-mate",
     {| name := py "@git-mate";
        definition := py "Git Workflow and Versioning Specialist (GitMate) who manages version control";
        output := py "commits, tags, changelog";
        next_role := py "deployment" |})
  ].

(** [self.roles.get(role_name, {}).get(key, default)] *)
Definition role_get (role_name : str) (key : role_info → str) (default : str) : str :=
  from_option key default (roles !! role_name).

(** *** [add_interaction_pattern] *)

Definition pattern_project_initiator : str := py "
## Interactive Session Structure
- Phase 1: Overview & Context Setting
- Phase 2: Hierarchical Question Gathering (1, 1.1, 1.1.a format)
- Phase 3: Summary & Confirmation
- Phase 4: Output Generation & Validation

## Question Hierarchy Pattern

### Discovery Phase Overview
I'll guide you through 4 main areas with approximately 15 total questions:

1. Problem Definition (4-5 questions)
   1.1. Problem metrics and measurement
   1.2. Impact analysis
2. Validation & Evidence (3-4 questions)
   2.1. Existing solutions evaluation
   2.2. Evidence of problem severity
3. Constraints & Resources (3-4 questions)
   3.1. Technical constraints
   3.2. Resource limitations
4. Success Vision (2-3 questions)
   4.1. Success metrics
   4.2. Timeline expectations

Total estimated questions: 15
Estimated time: 10-15 minutes

Navigation: Type 'skip' to move forward, 'back' to revisit, 'overview' to see all questions".

Definition pattern_requirements_collector : str := py "
## Interactive Session Structure
- Phase 1: Overview & Context Setting
- Phase 2: Hierarchical Question Gathering (1, 1.1, 1.1.a format)
- Phase 3: Summary & Confirmation
- Phase 4: Output Generation & Validation

## Question Hierarchy Pattern

### Requirements Gathering Overview
I'll guide you through 4 main areas with approximately 20 questions:

1. Functional Requirements (6-7 questions)
   1.1. Core features
       1.1.a. Feature priorities
       1.1.b. Feature dependencies
   1.2. User workflows
2. Non-Functional Requirements (5-6 questions)
   2.1. Performance requirements
   2.2. Security requirements
3. User Experience (4-5 questions)
   3.1. User personas
   3.2. Accessibility needs
4. Integration & Data (3-4 questions)
   4.1. External systems
   4.2. Data requirements

Total estimated questions: 20
Estimated time: 15-20 minutes".

Definition pattern_mvp_specialist : str := py "
## Interactive Session Structure
- Phase 1: Overview & Context Setting
- Phase 2: Hierarchical Question Gathering (1, 1.1, 1.1.a format)
- Phase 3: Summary & Confirmation
- Phase 4: Output Generation & Validation

## Question Hierarchy Pattern

### MVP Definition Overview
I'll guide you through 3 main areas with approximately 12 questions:

1. Core Value Proposition (4-5 questions)
   1.1. Primary user need
       1.1.a. Evidence of need
       1.1.b. Alternative solutions
   1.2. Unique value delivery
2. Feature Prioritization (4-5 questions)
   2.1. Must-have features
   2.2. Should-have features
   2.3. Could-have features
3. Success Metrics (3-4 questions)
   3.1. Validation criteria
   3.2. Learning objectives

Total estimated questions: 12
Estimated time: 10-12 minutes".

Definition pattern_default : str := py "
## Interactive Session Structure
- Phase 1: Overview & Context Setting
- Phase 2: Hierarchical Question Gathering (1, 1.1, 1.1.a format)
- Phase 3: Summary & Confirmation
- Phase 4: Output Generation & Validation

## Question Hierarchy Pattern
Questions will follow hierarchical numbering:
1. Main topic
   1.1. Clarifying question
       1.1.a. Specific detail
   1.2. Related aspect
2. Next main topic".

Definition question_structures : gmap str str :=
  list_to_map [
    (py "project-initiator", pattern_project_initiator);
    (py "requirements-collector", pattern_requirements_collector);
    (py "mvp-specialist", pattern_mvp_specialist)
  ].

Definition add_interaction_pattern (role_content role_name : str) : str :=
  let pattern := default pattern_default (question_structures !! role_name) in
  role_content ++ [newline] ++ pattern.

(** *** [add_standard_operating_procedures] *)

Definition sop_head : str := py "
## Standard Operating Procedures

### Initial Session
1. Display role header with current and next suggested role
2. Present question overview with time estimate
3. Confirm user readiness to proceed
4. Begin hierarchical questioning

### Working Sessions
1. Follow UNDERSTAND → DESIGN → STRUCTURE → VALIDATE approach
2. Update task status in real-time
3. Maintain version history in output files
4. Regular progress checkpoints with user

### Validation Session
1. Present completed work summary
2. Request user validation
3. Address any concerns or gaps
4. Confirm readiness for handoff

### Handoff Session
1. Summarize deliverables created
2. Highlight key decisions and rationale
3. Prepare handoff artifacts for next role
4. Suggest next role: ".

Definition add_standard_operating_procedures (role_content role_name : str) : str :=
  let sop_template := sop_head ++ role_get role_name next_role (py "next appropriate role") in
  role_content ++ [newline] ++ sop_template.

(** *** [add_example_usage] *)

Definition add_example_usage (role_content role_name : str) : str :=
  let get := role_get role_name in
  let example :=
    py "
## Example Usage

```
Claude: " ++ dquote ++ py "Based on your request, I recommend using "
    ++ get name (py "@role-name") ++ py " to "
    ++ get definition (py "perform this task") ++ dquote ++ py "
User: " ++ get name (py "@role-name") ++ py " or /" ++ role_name ++ py "

" ++ get name (py "Role") ++ py ": 🎭 **Current Role**: "
    ++ get name (py "Role Name") ++ py " - "
    ++ get definition (py "Role description") ++ py "
➡️ **Next Suggested Role**: " ++ get next_role (py "Next Role")
    ++ py " - Continue with next phase

I'll now begin the interactive session to gather the necessary information.

## Question Overview
[Presents hierarchical question structure]

Let's begin:

**[1/N] First Topic Area**

1. [First main question]?
   > [Waits for user response]
```" in
  role_content ++ [newline] ++ example.

(** *** [add_missing_elements]

    The method is a straight line of five guarded blocks over the pair of
    local variables [role_content] and [enhancements]; each block is a
    function on that pair. *)

Definition confirmation_text : str := py "
12. **SUMMARY & CONFIRMATION**:
    - After all questions, provide complete summary
    - Allow user to revise any answer
    - Confirm understanding before proceeding".


Definition instrumentation_text : str :=
  py "8. **INSTRUMENTATION**: Logging, metrics, monitoring requirements for production validation".

(** Check and add interaction pattern. *)
Definition check_interaction_pattern (role_name : str) (st : str * list str) : str * list str :=
  let '(role_content, enhancements) := st in
  if negb (str_in (py "## Interactive Session Structure") role_content)
  then (add_interaction_pattern role_content role_name,
        enhancements ++ [py "interaction_pattern"])
  else st.

(** Check and add SOPs. *)
Definition check_standard_operating_procedures (role_name : str) (st : str * list str) : str * list str :=
  let '(role_content, enhancements) := st in
  if negb (str_in (py "## Standard Operating Procedures") role_content)
  then (add_standard_operating_procedures role_content role_name,
        enhancements ++ [py "standard_operating_procedures"])
  else st.

(** Check and add example usage. *)
Definition check_example_usage (role_name : str) (st : str * list str) : str * list str :=
  let '(role_content, enhancements) := st in
  if negb (str_in (py "## Example Usage") role_content)
  then (add_example_usage role_content role_name,
        enhancements ++ [py "example_usage"])
  else st.

(** Add summary & confirmation if missing. *)
Definition check_summary_confirmation (st : str * list str) : str * list str :=
  let '(role_content, enhancements) := st in
  if negb (str_in (py "SUMMARY & CONFIRMATION") role_content)
  then
    let role_content :=
      if str_in (py "WORKFLOW EVALUATION") role_content
      then replace role_content (py "13. WORKFLOW EVALUATION")
             (confirmation_text ++ [newline] ++ py "13. WORKFLOW EVALUATION")
      else role_content ++ [newline] ++ confirmation_text in
    (role_content, enhancements ++ [py "summary_confirmation"])
  else st.

(** Add instrumentation if missing. *)
Definition check_instrumentation (st : str * list str) : str * list str :=
  let '(role_content, enhancements) := st in
  if negb (str_in (py "INSTRUMENTATION") role_content) && str_in (py "8. ") role_content
  then (re_sub match_item8 (instrumentation_text ++ [newline] ++ py "9. ") role_content,
        enhancements ++ [py "instrumentation"])
  else st.

Definition add_missing_elements (role_content role_name : str) : str * list str :=
  check_instrumentation
    (check_summary_confirmation
       (check_example_usage role_name
          (check_standard_operating_procedures role_name
             (check_interaction_pattern role_name (role_content, []))))).

(** *** [migrate_ai_roles_file] *)

Section Roles.
Variable isword : char → bool.

(** The [for] loop over [role_sections[1:]], two entries at a time; a heading
    without a following body is skipped by the test [i+1 < len(role_sections)].
    [enhance] is the per-role step, [add_missing_elements] in the program.
    The result is the text appended to [migrated_content] and the lines
    appended to [self.migration_report]. *)
Fixpoint migrate_sections (enhance : str → str → str * list str) (sections : list str) : result (str * list str) :=
  match sections with
  | role_header :: role_content :: rest =>
    match search_role_name isword role_header with
    | None => Raise AttributeError
    | Some role_name =>
      let '(enhanced_content, enhancements) := enhance role_content role_name in
      '(tail, report) ← migrate_sections enhance rest;
      Ok (role_header ++ enhanced_content ++ tail,
          match enhancements with
          | [] => report
          | _ :: _ =>
            (py "Enhanced " ++ role_name ++ py ": " ++ join (py ", ") enhancements) :: report
          end)
    end
  | _ => Ok ([], [])
  end.

(** The text transformation of [migrate_ai_roles_file]: split, enhance each
    role, concatenate in the original order. *)
Definition migrate_content (enhance : str → str → str * list str) (content : str) : result (str * list str) :=
  let role_sections := re_split (match_role_heading isword) content in
  match role_sections with
  | [] => Raise IndexError
  | header :: rest =>
    '(tail, report) ← migrate_sections enhance rest;
    Ok (header ++ tail, report)
  end.

Definition migrate_ai_roles_file (d : fs) (migration_report : list str) : result (fs * list str) :=
  let file_path := base_path ++ py "/AI-Roles.md" in
  content ← read_text d file_path;
  '(migrated_content, report) ← migrate_content add_missing_elements content;
  d' ← write_text d file_path migrated_content;
  Ok (d', migration_report ++ report).

End Roles.

(** *** [update_claude_md]

    [today] is [datetime.now().strftime('%Y-%m-%d')]. *)

Definition migration_note (today : str) : str :=
  [newline] ++ py "| role-template.md | Standardized template for all roles with interaction patterns | 1.0 | "
    ++ today ++ py " |".

Definition version_section (today : str) : str :=
  py "
## Version History
- v1.3 (" ++ today ++ py "): Migrated all roles to standardized template with hierarchical interaction patterns".

(** The text transformation between the read and the write. *)
Definition update_claude_content (today content : str) : str :=
  let content :=
    if negb (str_in (py "role-template.md") content)
    then replace content (py "| VERSION | Current version")
           (migration_note today ++ [newline] ++ py "| VERSION | Current version")
    else content in
  if negb (str_in (py "## Version History") content)
  then replace content (py "# important-instruction-reminders")
         (version_section today ++ [newline; newline] ++ py "# important-instruction-reminders")
  else content.


End Migrator.

(** ** The migration script: command files and report *)

Module Commands.

Import Migrator.

(** The entries of [self.roles] in the order of the dictionary, which is the
    order of [self.roles.keys()]. *)
Definition roles_items : list (str * role_info) :=
  [
    (py "project-initiator",
     {| name := py "@project-initiator";
        definition := py "Project Discovery Specialist who transforms vague ideas into actionable project briefs";
        output := py "project-brief.md";
        next_role := py "@requirements-collector" |});
    (py "requirements-collector",
     {| name := py "@requirements-collector";
        definition := py "Requirements Collection Specialist who gathers comprehensive, clear, and actionable requirements";
        output := py "user-stories.md";
        next_role := py "@mvp-specialist" |});
    (py "mvp-specialist",
     {| name := py "@mvp-specialist";
        definition := py "MVP Strategy & Refinement Specialist who identifies minimum viable products";
        output := py "mvp-requirements.md";
        next_role := py "@architect" |});
    (py "architect",
     {| name := py "@architect";
        definition := py "Solution Architect (Archie) who designs technology solutions using TOGAF principles";
        output := py "architecture.md";
        next_role := py "@planner" |});
    (py "planner",
     {| name := py "@planner";
        definition := py "Task Planning Specialist who creates hierarchical task structures";
        output := py "task-list.json";
        next_role := py "@pseudo-coder" |});
    (py "pseudo-coder",
     {| name := py "@pseudo-coder";
        definition := py "Logic Designer who translates implementation tasks into clear pseudo code";
        output := py "pseudo-code.md";
        next_role := py "@tdd-evidence-specialist" |});
    (py "tdd-evidence-specialist",
     {| name := py "@tdd-evidence-specialist";
        definition := py "TDD Evidence Specialist who proves systems work through comprehensive tests";
        output := py "evidence-tests.md";
        next_role := py "@coder" |});
    (py "coder",
     {| name := py "@coder";
        definition := py "Code Implementation Specialist who writes clean, efficient, modular code";
        output := py "working code files";
        next_role := py "@documentation-writer" |});
    (py "documentation-writer",
     {| name := py "@documentation-writer";
        definition := py "Evidence-Based Documentation Specialist who creates measurable, effective documentation";
        output := py "user guides, API docs";
        next_role := py "@git-mate" |});
    (py "git-mate",
     {| name := py "@git-mate";
        definition := py "Git Workflow and Versioning Specialist (GitMate) who manages version control";
        output := py "commits, tags, changelog";
        next_role := py "deployment" |})
  ].

Definition commands_dir : str := base_path ++ py "/.claude/commands".

(** [f"{commands_dir}/{role_key}.md"] *)
Definition command_path (role_key : str) : str :=
  commands_dir ++ py "/" ++ role_key ++ py ".md".

Definition interaction_section (role_info : role_info) : str :=
  py "
## Structured Interaction Pattern

### Question Overview
Present all questions upfront with hierarchical numbering (1, 1.1, 1.1.a)

### Interactive Questioning
- Ask ONE question at a time
- Wait for user response before proceeding
- Allow 'skip', 'back', and 'overview' navigation

### Progress Tracking
Show progress: [Question X of Y] or [■■■□□□□□□□] 30% complete

### Summary & Confirmation
After all questions, provide summary and allow revisions

## Role Display
🎭 **Current Role**: " ++ name role_info ++ py " - " ++ definition role_info ++ py "
➡️ **Next Suggested Role**: " ++ next_role role_info ++ py " - Continue with next phase".

(** What [migrate_command_files] does to the text of one command file. *)
Definition migrate_command_content (role_info : role_info) (content : str) : str :=
  if negb (str_in (py "## Interactive Q&A Framework") content)
     && negb (str_in (py "## Question") content)
  then
    if str_in (py "## Key Responsibilities") content
    then replace content (py "## Key Responsibilities")
           (interaction_section role_info ++ [newline; newline] ++ py "## Key Responsibilities")
    else content ++ [newline] ++ interaction_section role_info
  else content.

(** The loop over the roles: a file that exists is read, rewritten and
    reported, whether or not its text has changed. *)
Fixpoint migrate_command_loop (items : list (str * role_info)) (d : fs) (migration_report : list str) : result (fs * list str) :=
  match items with
  | [] => Ok (d, migration_report)
  | (role_key, role_info) :: rest =>
    let file_path := command_path role_key in
    if exists_ d file_path then
      content ← read_text d file_path;
      d' ← write_text d file_path (migrate_command_content role_info content);
      migrate_command_loop rest d'
        (migration_report ++ [py "Updated command file: " ++ role_key ++ py ".md"])
    else migrate_command_loop rest d migration_report
  end.

Definition migrate_command_files (d : fs) (migration_report : list str) : result (fs * list str) :=
  migrate_command_loop roles_items d migration_report.

(** *** [generate_report]

    [now_stamp] and [now_text] are the two readings of the clock, formatted
    with ['%Y%m%d_%H%M%S'] and ['%Y-%m-%d %H:%M:%S']; [backup_dir] is
    [self.backup_dir]. *)

Definition report_path (now_stamp : str) : str :=
  base_path ++ py "/migration_report_" ++ now_stamp ++ py ".md".

Definition report_content (now_text backup_dir : str) (migration_report : list str) : str :=
  py "# Role Migration Report
Generated: " ++ now_text ++ py "

## Summary
Migrated all 10 roles to comply with role-template.md standards.

## Backup Location
" ++ backup_dir ++ py "

## Changes Applied
### Universal Enhancements Added to All Roles:
- ✅ Hierarchical Question Pattern (1, 1.1, 1.1.a format)
- ✅ Interactive Session Structure (4 phases)
- ✅ Summary & Confirmation Process
- ✅ Standard Operating Procedures
- ✅ Example Usage Demonstrations
- ✅ Progress Tracking Indicators
- ✅ Navigation Options (skip, back, overview)

## Migration Details
" ++ join [newline] migration_report ++ py "

## Next Steps
1. Review migrated files for accuracy
2. Test each role with actual usage
3. Commit changes with message: " ++ dquote ++ py "feat: Migrate all roles to standardized template" ++ dquote ++ py "
4. Update VERSION file if needed

## Rollback Instructions
If needed, restore from backup:
```bash
cp -r " ++ backup_dir ++ py "/* " ++ base_path ++ py "/
```
".

Definition generate_report (now_stamp now_text backup_dir : str) (d : fs) (migration_report : list str) : result (fs * str) :=
  d' ← write_text d (report_path now_stamp) (report_content now_text backup_dir migration_report);
  Ok (d', report_path now_stamp).

End Commands.

(** ** The file service: class [FileServerHandler] *)

Module Server.

(** *** Requests and responses *)

(** The value of [json.loads]. A number only matters here as something that is
    not a string. *)
Inductive json :=
  | JNull
  | JBool (b : bool)
  | JNum (z : Z)
  | JStr (s : str)
  | JArr (l : list json)
  | JObj (m : gmap (list N) json).

(** What the handler sees of a request: [self.path]; the results of
    [urlparse(self.path).path] and of [parse_qs] on the query; and the outcome
    of reading [Content-Length] bytes of body and decoding them as JSON. *)
Record request := {
  self_path : str;
  parsed_path : str;
  query_params : gmap (list N) (list str);
  data : result json
}.

(** An entry of the listing, the dictionary [file_info]. *)
Record file_info := {
  name : str;
  path : str;
  type : str;
  preview : str
}.

(** What is written to [self.wfile]. *)
Inductive body :=
  | text (s : str)
  | json_files (l : list (str * list file_info))
  | json_success.

(** The calls a handler makes on the response. *)
Inductive event :=
  | send_response (code : nat)
  | send_header (keyword value : str)
  | end_headers
  | wfile_write (b : body)
  | send_error (code : nat)
  | super_do_GET.

(** A handler run: the disk it leaves, the calls it made, how it ended. *)
Record run := {
  disk : gmap (list N) node;
  events : list event;
  finished : result ()
}.

(** *** [get_file_type] *)

Definition get_file_type (file_path : str) : str :=
  if str_in (py "AI-Roles.md") file_path then py "roles"
  else if startswith file_path (py ".claude/commands/") then py "command"
  else if bool_decide (file_path ∈ [py "project-brief.md"; py "mvp-requirements.md";
                                     py "architecture.md"; py "pseudo-code.md";
                                     py "evidence-tests.md"])
  then py "project"
  else py "doc".

(** *** [get_file_preview] *)

(** [f.readlines()] on the text as read, where the line feed is the only
    line end left: the lines with their terminators. *)
Fixpoint readlines_from (cur : str) (s : str) : list str :=
  match s with
  | [] => match cur with [] => [] | _ :: _ => [cur] end
  | c :: s' =>
    if (c =? newline)%N then (cur ++ [c]) :: readlines_from [] s'
    else readlines_from (cur ++ [c]) s'
  end.

Definition readlines (s : str) : list str := readlines_from [] s.

(** The test of the loop body, on the stripped line. *)
Definition good_preview_line (line : str) : bool :=
  negb (bool_decide (line = [])) && negb (startswith line (py "#"))
  && bool_decide (20 < length line).

(** The [for] loop with its [return]s. *)
Fixpoint preview_of_lines (lines : list str) : str :=
  match lines with
  | [] => py "Markdown documentation file"
  | line :: rest =>
    let line := strip line in
    if good_preview_line line
    then (if bool_decide (80 < length line) then take 80 line ++ py "..." else line)
    else preview_of_lines rest
  end.

Definition get_file_preview (d : fs) (file_path : str) : str :=
  match read_text d file_path with
  | Ok content => preview_of_lines (take 10 (readlines content))
  | Raise _ => py "File preview not available"
  end.

(** *** [get_all_md_files] *)

(** [os.path.basename] *)
Fixpoint basename_from (cur : str) (s : str) : str :=
  match s with
  | [] => cur
  | c :: s' => if (c =? 47)%N then basename_from [] s' else basename_from (cur ++ [c]) s'
  end.

Definition basename (s : str) : str := basename_from [] s.

(** [sorted(files, key=lambda x: x['name'])]: a stable sort. *)
Fixpoint insert_by_name (x : file_info) (l : list file_info) : list file_info :=
  match l with
  | [] => [x]
  | y :: l' => if str_le (name x) (name y) then x :: l else y :: insert_by_name x l'
  end.

Fixpoint sorted_by_name (l : list file_info) : list file_info :=
  match l with
  | [] => []
  | x :: l' => insert_by_name x (sorted_by_name l')
  end.

(** [categories[key].append(file_info)] on the ordered dictionary. *)
Fixpoint append_to (key : str) (x : file_info) (categories : list (str * list file_info)) : list (str * list file_info) :=
  match categories with
  | [] => []
  | (k, files) :: rest =>
    if bool_decide (k = key) then (k, files ++ [x]) :: rest
    else (k, files) :: append_to key x rest
  end.

(** The bucket chosen by the [if]/[elif]/[else] of the loop. *)
Definition category_of (file_path : str) : str :=
  if startswith file_path (py ".claude/commands/") then py "Role Commands"
  else if bool_decide (file_path ∈ [py "README.md"; py "CLAUDE.md"; py "AI-Roles.md";
                                     py "core-principles.md"; py "CHANGELOG.md"])
  then py "Core Documentation"
  else py "Project Files".

Definition make_file_info (d : fs) (file_path : str) : file_info :=
  {| name := basename file_path;
     path := py "/" ++ file_path;
     type := get_file_type file_path;
     preview := get_file_preview d file_path |}.

(** The loop over [md_files]. *)
Fixpoint categorize (d : fs) (md_files : list str) (categories : list (str * list file_info)) : list (str * list file_info) :=
  match md_files with
  | [] => categories
  | file_path :: rest =>
    if str_in (py "node_modules") file_path then categorize d rest categories
    else categorize d rest (append_to (category_of file_path) (make_file_info d file_path) categories)
  end.

(** The conversion loop: non-empty buckets, each sorted. *)
Fixpoint to_expected_format (categories : list (str * list file_info)) : list (str * list file_info) :=
  match categories with
  | [] => []
  | (category, files) :: rest =>
    match files with
    | [] => to_expected_format rest
    | _ :: _ => (category, sorted_by_name files) :: to_expected_format rest
    end
  end.

(** [md_files] is the result of [glob.glob('**/*.md', recursive=True)]. *)
Definition get_all_md_files (d : fs) (md_files : list str) : list (str * list file_info) :=
  let categories := [(py "Core Documentation", []);
                     (py "Project Files", []);
                     (py "Role Commands", [])] in
  to_expected_format (categorize d md_files categories).

(** *** [serve_file] *)

Definition serve_file (d : fs) (filename : str) : run :=
  let sent := [send_response 200; send_header (py "Content-type") (py "text/html"); end_headers] in
  match read_bytes d filename with
  | Ok content => {| disk := d; events := sent ++ [wfile_write (text content)]; finished := Ok () |}
  | Raise e => {| disk := d; events := sent; finished := Raise e |}
  end.

(** *** [do_GET] *)

Definition do_GET (d : fs) (md_files : list str) (req : request) : run :=
  if bool_decide (parsed_path req = py "/")
     || bool_decide (parsed_path req = py "/role-editor-enhanced.html")
  then serve_file d (py "role-editor-enhanced.html")
  else if bool_decide (parsed_path req = py "/api/files") then
    {| disk := d;
       events := [send_response 200;
                  send_header (py "Content-type") (py "application/json");
                  end_headers;
                  wfile_write (json_files (get_all_md_files d md_files))];
       finished := Ok () |}
  else if bool_decide (parsed_path req = py "/api/file") then
    match default [[]] (query_params req !! py "path") with
    | [] => {| disk := d; events := []; finished := Raise IndexError |}
    | file_path :: _ =>
      if negb (bool_decide (file_path = [])) && exists_ d (py "." ++ file_path)
      then
        let sent := [send_response 200;
                     send_header (py "Content-type") (py "text/plain; charset=utf-8");
                     end_headers] in
        match read_text d (py "." ++ file_path) with
        | Ok content => {| disk := d; events := sent ++ [wfile_write (text content)]; finished := Ok () |}
        | Raise e => {| disk := d; events := sent; finished := Raise e |}
        end
      else {| disk := d; events := [send_error 404]; finished := Ok () |}
    end
  else {| disk := d; events := [super_do_GET]; finished := Ok () |}.

(** *** [do_POST] *)

(** [data.get(key, '')] *)
Definition data_get (data : json) (key : str) : result json :=
  match data with
  | JObj m => Ok (default (JStr []) (m !! key))
  | _ => Raise AttributeError
  end.

(** A value used where the program needs a [str]. *)
Definition as_str (v : json) : result str :=
  match v with
  | JStr s => Ok s
  | _ => Raise TypeError
  end.

Definition do_POST (d : fs) (req : request) : run :=
  if bool_decide (self_path req = py "/api/save") then
    match (data ← data req;
           p ← data_get data (py "path");
           p ← as_str p;
           content ← data_get data (py "content");
           Ok (py "." ++ p, content)) with
    | Raise e => {| disk := d; events := []; finished := Raise e |}
    | Ok (file_path, content) =>
      if negb (bool_decide (file_path = [])) && exists_ d file_path then
        match open_w d file_path with
        | Raise e => {| disk := d; events := []; finished := Raise e |}
        | Ok d' =>
          match as_str content with
          | Raise e => {| disk := d'; events := []; finished := Raise e |}
          | Ok content =>
            if encodable content then
              {| disk := <[file_path := File content]> d';
                 events := [send_response 200;
                            send_header (py "Content-type") (py "application/json");
                            end_headers;
                            wfile_write json_success];
                 finished := Ok () |}
            else {| disk := d'; events := []; finished := Raise UnicodeEncodeError |}
          end
        end
      else {| disk := d; events := [send_error 404]; finished := Ok () |}
    end
  else {| disk := d; events := []; finished := Ok () |}.

End Server.

(** ** Notions used in the statements *)

Import Migrator.

(** The pair of local variables of [add_missing_elements] when the first four
    blocks are done and the instrumentation block is about to run. *)
Definition sections_checked (role_content role_name : str) : str * list str :=
  check_summary_confirmation
    (check_example_usage role_name
       (check_standard_operating_procedures role_name
          (check_interaction_pattern role_name (role_content, [])))).

(** Number of places of [s] where [t] starts. *)
Fixpoint occurrences (t s : str) : nat :=
  match s with
  | [] => 0
  | _ :: s' => (if startswith s t then 1 else 0) + occurrences t s'
  end.

(** [s] starts with [8.] and a white space character: a match of [8\.\s+.*]
    starts here. *)
Definition starts_item8 (s : str) : bool :=
  match s with
  | a :: b :: w :: _ => (a =? 56)%N && (b =? 46)%N && isspace w
  | _ => false
  end.

(** The first place of the line [l] where [8.] and white space start. *)
Fixpoint find_item8 (l : str) : option nat :=
  match l with
  | [] => None
  | _ :: l' => if starts_item8 l then Some 0 else S <$> find_item8 l'
  end.

(** A line without line feed. *)
Definition one_line (l : str) : Prop := forallb dot l = true.

(** The matches of [8\.\s+.*] that touch the line [l] stay on it: after the
    first [8.] with white space some character of the line is not white space,
    and when there is no such place the line does not end in [8.] (the line
    feed after it would be the white space). *)
Fixpoint line_local (l : str) : bool :=
  match l with
  | [] => true
  | _ :: l' =>
    if starts_item8 l then negb (forallb isspace (drop 2 l))
    else negb (bool_decide (l = [56; 46]%N)) && line_local l'
  end.

(** What becomes of one line: cut at the first [8.] with white space, the
    bullet put there, and a line [9. ] after it. *)
Definition rewrite_line (l : str) : list str :=
  match find_item8 l with
  | Some i => [take i l ++ instrumentation_text; py "9. "]
  | None => [l]
  end.

(** The instrumentation step as C3 words it: the first line with a match is
    replaced by the bullet and a line [9. ], every other line of the body is
    as it was, whatever is appended after them. *)
Definition only_first_item8_replaced (body result : str) : Prop :=
  ∃ before line after appended,
    split_lines body = before ++ line :: after
    ∧ Forall (λ l, find_item8 l = None) before
    ∧ is_Some (find_item8 line)
    ∧ split_lines result = before ++ [instrumentation_text; py "9. "] ++ after ++ appended.

(** [r] is [s] with the text [pre] put in front of some of the characters [a]
    of [s]: what [replace] does when the new text ends with the old one. *)
Inductive inserted (pre : str) (a : N) : str → str → Prop :=
  | inserted_nil : inserted pre a [] []
  | inserted_keep x s r : inserted pre a s r → inserted pre a (x :: s) (x :: r)
  | inserted_here s r : inserted pre a s r → inserted pre a (a :: s) (pre ++ a :: r).

Import Server.

(** A line of the file is a heading or blank, for the preview: nothing is left
    of it after stripping, or what is left starts with [#]. *)
Definition heading_or_blank (line : str) : Prop :=
  strip line = [] ∨ startswith (strip line) (py "#") = true.

(** A line qualifies as preview: stripped, it is not empty, does not start
    with [#] and has more than 20 characters. *)
Definition qualifying (line : str) : Prop :=
  strip line ≠ [] ∧ startswith (strip line) (py "#") = false ∧ 20 < length (strip line).

(** Order of two entries by their names. *)
Definition name_le (x y : file_info) : Prop := str_le (name x) (name y) = true.

(** The entries of the bucket [category], in the order of the listing. *)
Definition listed (d : gmap (list N) node) (md_files : list str) (category : str) : list file_info :=
  make_file_info d <$>
    filter (λ p, str_in (py "node_modules") p = false ∧ category_of p = category) md_files.

(** The request [req] with the JSON object [m] as its body. *)
Definition with_data (req : request) (m : gmap (list N) json) : request :=
  {| self_path := self_path req; parsed_path := parsed_path req;
     query_params := query_params req; data := Ok (JObj m) |}.

(** The names that [add_missing_elements] can record, in the order of its
    blocks. *)
Definition enhancement_names : list str :=
  [py "interaction_pattern"; py "standard_operating_procedures"; py "example_usage";
   py "summary_confirmation"; py "instrumentation"].

(** The pair of local variables of [add_missing_elements] when the three
    heading blocks are done and the summary block is about to run. *)
Definition headings_checked (role_content role_name : str) : str * list str :=
  check_example_usage role_name
    (check_standard_operating_procedures role_name
       (check_interaction_pattern role_name (role_content, []))).

Import Commands.

(** The calls of a successful save on the response. *)
Definition save_ok_events : list event :=
  [send_response 200; send_header (py "Content-type") (py "application/json");
   end_headers; wfile_write json_success].

(** The status line and headers of a file read. *)
Definition file_ok_headers : list event :=
  [send_response 200; send_header (py "Content-type") (py "text/plain; charset=utf-8");
   end_headers].

(** The status line and headers of the editor page. *)
Definition page_ok_headers : list event :=
  [send_response 200; send_header (py "Content-type") (py "text/html"); end_headers].

(** * Properties *)

(** ** The string operations on small inputs *)

Example py_decodes_utf8 : py "a→🎭" = [97; 8594; 127917]%N.
Proof. by vm_compute. Qed.

Example replace_every_occurrence :
  replace (py "aXbXXc") (py "X") (py "--") = py "a--b----c".
Proof. by vm_compute. Qed.

Example replace_without_overlap :
  replace (py "aaa") (py "aa") (py "b") = py "ba".
Proof. by vm_compute. Qed.

Example replace_empty_old : replace (py "ab") [] (py "-") = py "-a-b-".
Proof. by vm_compute. Qed.

Example strip_both_ends : strip (py "  	# Title
") = py "# Title".
Proof. by vm_compute. Qed.

Example re_sub_item8_crosses_lines :
  re_sub match_item8 (py "X") (py "18.
  next line
kept") = py "1X
kept".
Proof. by vm_compute. Qed.

Example readlines_keeps_terminators :
  Server.readlines (py "a
b") = [py "a" ++ [newline]; py "b"].
Proof. by vm_compute. Qed.

Example universal_newlines_translates :
  universal_newlines (py "a" ++ [13]%N ++ py "b" ++ [13; 10]%N ++ py "c" ++ [13]%N)
  = py "a
b
c
".
Proof. by vm_compute. Qed.

Example get_file_preview_after_carriage_return :
  Server.get_file_preview
    {[ py "cr.md" := File (py "# Title" ++ [13]%N
                           ++ py "This sentence follows a bare carriage return."
                           ++ [newline]) ]} (py "cr.md")
  = py "This sentence follows a bare carriage return.".
Proof. by vm_compute. Qed.

Example do_POST_lone_surrogate :
  Server.do_POST {[ py "./a.md" := File (py "old") ]}
    {| Server.self_path := py "/api/save"; Server.parsed_path := py "/api/save";
       Server.query_params := ∅;
       Server.data := Ok (Server.JObj {[ py "path" := Server.JStr (py "/a.md");
                                         py "content" := Server.JStr [55296]%N ]}) |}
  = {| Server.disk := {[ py "./a.md" := File [] ]}; Server.events := [];
       Server.finished := Raise UnicodeEncodeError |}.
Proof. by vm_compute. Qed.


(** Two literals that differ. *)
Ltac py_neq := let H := fresh in intros H; vm_compute in H; discriminate H.

(** ** Substring tests and replacement *)

Section StrFacts.
Implicit Types s t u v p old new : str.

Lemma startswith_spec s p : startswith s p = true ↔ ∃ r, s = p ++ r.
Proof.
  revert s. induction p as [|a p IH]; intros s; simpl.
  - split; [intros _; by exists s | done].
  - destruct s as [|b s]; simpl.
    + split; [done | intros [r Hr]; discriminate].
    + rewrite andb_true_iff, N.eqb_eq, IH. split.
      * intros [-> [r ->]]. by exists r.
      * intros [r Hr]. injection Hr as -> ->. eauto.
Qed.

Lemma startswith_app p r : startswith (p ++ r) p = true.
Proof. apply startswith_spec. by exists r. Qed.

Lemma startswith_nil s : startswith s [] = true.
Proof. by destruct s. Qed.

Lemma str_in_spec t s : str_in t s = true ↔ ∃ u v, s = u ++ t ++ v.
Proof.
  induction s as [|c s IH]; simpl.
  - rewrite orb_false_r, startswith_spec. split.
    + intros [r Hr]. exists [], r. done.
    + intros (u & v & H). symmetry in H.
      apply app_eq_nil in H as [-> H]. apply app_eq_nil in H as [-> ->].
      by exists [].
  - rewrite orb_true_iff, startswith_spec, IH. split.
    + intros [[r Hr] | (u & v & ->)].
      * exists [], r. done.
      * exists (c :: u), v. done.
    + intros (u & v & H). destruct u as [|c' u]; simpl in H.
      * left. by exists v.
      * right. injection H as -> ->. by exists u, v.
Qed.

Lemma str_in_app_l t s x : str_in t s = true → str_in t (s ++ x) = true.
Proof.
  rewrite !str_in_spec. intros (u & v & ->).
  exists u, (v ++ x). by rewrite <- !app_assoc.
Qed.

Lemma str_in_app_r t s x : str_in t s = true → str_in t (x ++ s) = true.
Proof.
  rewrite !str_in_spec. intros (u & v & ->).
  exists (x ++ u), v. by rewrite <- !app_assoc.
Qed.

Lemma str_in_cons_false t c s : str_in t (c :: s) = false → str_in t s = false.
Proof. simpl. by intros [_ ?]%orb_false_iff. Qed.

Lemma replace_from_0_cons old new c s :
  replace_from old new 0 (c :: s) =
  if startswith (c :: s) old
  then new ++ match old with
              | [] => c :: replace_from old new 0 s
              | _ :: _ => replace_from old new (length old - 1) s
              end
  else c :: replace_from old new 0 s.
Proof. done. Qed.

(** The scan steps over the occurrence it has just replaced. *)
Lemma replace_from_skip old new w s :
  replace_from old new (length w) (w ++ s) = replace_from old new 0 s.
Proof. induction w as [|c w IH]; simpl; done. Qed.

Lemma replace_here s old new :
  old ≠ [] → replace (old ++ s) old new = new ++ replace s old new.
Proof.
  intros Hold. destruct old as [|c old]; [done|].
  unfold replace. change ((c :: old) ++ s) with (c :: (old ++ s)).
  rewrite replace_from_0_cons.
  change (c :: (old ++ s)) with ((c :: old) ++ s). rewrite startswith_app.
  f_equal. replace (length (c :: old) - 1) with (length old) by (simpl; lia).
  apply replace_from_skip.
Qed.

Lemma replace_next c s old new :
  startswith (c :: s) old = false →
  replace (c :: s) old new = c :: replace s old new.
Proof. unfold replace. simpl. by intros ->. Qed.

Lemma replace_nil old new : old ≠ [] → replace [] old new = [].
Proof. by destruct old. Qed.

(** Replacing a text that does not occur changes nothing. *)
Lemma replace_absent s old new : str_in old s = false → replace s old new = s.
Proof.
  induction s as [|c s IH]; intros H.
  - destruct old; [done|]. done.
  - simpl in H. apply orb_false_iff in H as [H1 H2].
    rewrite replace_next by done. by rewrite IH.
Qed.

End StrFacts.

(** ** Files on disk *)

Section DiskFacts.
Implicit Types (d : gmap (list N) node) (p t : str).

Lemma exists_true d p : exists_ d p = true ↔ is_Some (d !! p).
Proof. unfold exists_. by rewrite bool_decide_eq_true. Qed.

Lemma exists_false d p : exists_ d p = false ↔ d !! p = None.
Proof. unfold exists_. by rewrite bool_decide_eq_false, eq_None_not_Some. Qed.

(** Writing over a file. *)
Lemma write_text_over d p old t :
  d !! p = Some (File old) → write_text d p t = Ok (<[p := File t]> d).
Proof.
  unfold write_text, open_w. intros ->. cbn [mbind result_bind].
  by rewrite insert_insert_eq.
Qed.


Lemma read_text_file d p stored :
  d !! p = Some (File stored) → read_text d p = Ok (universal_newlines stored).
Proof. unfold read_text. by intros ->. Qed.




Lemma universal_newlines_other c s :
  c ≠ 13%N → universal_newlines (c :: s) = c :: universal_newlines s.
Proof. intros Hc. cbn [universal_newlines]. by destruct (N.eqb_spec c 13). Qed.

(** A text without carriage return is read as it is stored. *)
Lemma universal_newlines_no_cr s :
  forallb (λ c, negb (c =? 13)%N) s = true → universal_newlines s = s.
Proof.
  induction s as [|c s IH]; [done|].
  cbn [forallb]. intros [Hc Hs]%andb_true_iff.
  apply negb_true_iff, N.eqb_neq in Hc.
  rewrite universal_newlines_other by done. by rewrite IH.
Qed.



(** Opening for writing keeps the set of paths when the path exists. *)
Lemma open_w_dom d d' p :
  is_Some (d !! p) → open_w d p = Ok d' → dom d' = dom d.
Proof.
  unfold open_w. intros [n Hn] H. rewrite Hn in H.
  destruct n; [|done]. injection H as <-.
  rewrite dom_insert_L. apply elem_of_dom_2 in Hn. set_solver.
Qed.

End DiskFacts.

(** ** The migration of the top-level document *)



(** ** The file service *)


(** C10. A POST whose [self.path] is not exactly [/api/save] makes no call on
    the response at all, leaves the disk alone and returns normally. *)
Theorem do_POST_other_path_silent (d : gmap (list N) node) (req : request) :
  self_path req ≠ py "/api/save" →
  do_POST d req = {| disk := d; events := []; finished := Ok () |}.
Proof.
  intros Hpath. unfold do_POST.
  by rewrite bool_decide_eq_false_2.
Qed.

Lemma do_POST_other_path_silent_witness :
  do_POST ∅ {| self_path := py "/api/save?x=1"; parsed_path := py "/api/save";
               query_params := ∅; data := Ok (JObj ∅) |}
  = {| disk := ∅; events := []; finished := Ok () |}.
Proof.
  apply do_POST_other_path_silent. simpl. py_neq.
Defined.

(** [do_POST] never changes which paths exist. *)
Lemma do_POST_dom (d : gmap (list N) node) (req : request) :
  dom (disk (do_POST d req)) = dom d.
Proof.
  unfold do_POST. case_bool_decide; [|done].
  destruct (_ ≫= _) as [[file_path content]|e]; [|done].
  destruct (negb _ && exists_ d file_path) eqn:Hex; [|done].
  apply andb_true_iff in Hex as [_ Hex%exists_true].
  destruct (open_w d file_path) as [d'|e] eqn:Hopen; [|done].
  pose proof (open_w_dom _ _ _ Hex Hopen) as Hdom.
  assert (file_path ∈ dom d) by by apply elem_of_dom.
  destruct (as_str content) as [text|e]; simpl; [|done].
  destruct (encodable text); simpl; [|done].
  rewrite dom_insert_L. set_solver.
Qed.

(** C5. The 404 contract of the two file endpoints:
    - [GET /api/file?path=P] answers 404 when the local path [.P] does not
      exist;
    - [POST /api/save] whose JSON [path] is [P] answers 404 when [.P] does not
      exist, and the disk is exactly as before;
    - whatever the request, [do_POST] leaves the set of existing paths as it
      was, so the save endpoint never creates a file. *)
Theorem service_404_contract (d : gmap (list N) node) (md_files : list str) :
  (∀ req P rest,
     parsed_path req = py "/api/file" →
     query_params req !! py "path" = Some (P :: rest) →
     exists_ d (py "." ++ P) = false →
     do_GET d md_files req = {| disk := d; events := [send_error 404]; finished := Ok () |})
  ∧ (∀ req m P,
     self_path req = py "/api/save" →
     data req = Ok (JObj m) →
     m !! py "path" = Some (JStr P) →
     exists_ d (py "." ++ P) = false →
     do_POST d req = {| disk := d; events := [send_error 404]; finished := Ok () |})
  ∧ (∀ req, dom (disk (do_POST d req)) = dom d).
Proof.
  split; [|split].
  - intros req P rest Hpath Hquery Hex. unfold do_GET.
    rewrite Hpath, Hquery.
    rewrite !bool_decide_eq_false_2 by py_neq.
    rewrite bool_decide_eq_true_2 by done. cbn. rewrite Hex.
    by rewrite andb_false_r.
  - intros req m P Hpath Hdata Hm Hex. unfold do_POST.
    rewrite Hpath, Hdata. cbn. rewrite Hm. cbn. rewrite Hex.
    by rewrite andb_false_r.
  - intros req. apply do_POST_dom.
Qed.

Lemma service_404_contract_witness :
  do_GET {[ py "./README.md" := File (py "hello") ]} []
    {| self_path := py "/api/file?path=/nonexistent.md";
       parsed_path := py "/api/file";
       query_params := {[ py "path" := [py "/nonexistent.md"] ]};
       data := Raise TypeError |}
  = {| disk := {[ py "./README.md" := File (py "hello") ]};
       events := [send_error 404]; finished := Ok () |}
  ∧ do_POST {[ py "./README.md" := File (py "hello") ]}
    {| self_path := py "/api/save";
       parsed_path := py "/api/save";
       query_params := ∅;
       data := Ok (JObj {[ py "path" := JStr (py "/nonexistent.md");
                           py "content" := JStr (py "new text") ]}) |}
  = {| disk := {[ py "./README.md" := File (py "hello") ]};
       events := [send_error 404]; finished := Ok () |}.
Proof.
  destruct (service_404_contract {[ py "./README.md" := File (py "hello") ]} [])
    as (Hget & Hpost & _).
  split.
  - apply (Hget _ (py "/nonexistent.md") []).
    + reflexivity.
    + cbn. by rewrite lookup_singleton_eq.
    + vm_compute. reflexivity.
  - apply (Hpost _ {[ py "path" := JStr (py "/nonexistent.md");
                      py "content" := JStr (py "new text") ]} (py "/nonexistent.md")).
    + reflexivity.
    + reflexivity.
    + vm_compute. reflexivity.
    + vm_compute. reflexivity.
Defined.

(** C6. A save request whose JSON object lacks [path] or [content] is not
    rejected for that: the handler runs exactly as on the same object with the
    empty string under the missing key.  So without [content] an existing
    file is overwritten with the empty text and 200 is answered, and without
    [path] the target is the path [.]. *)
Theorem do_POST_missing_keys_default (d : gmap (list N) node) (req : request) (m : gmap (list N) json) :
  self_path req = py "/api/save" →
  data req = Ok (JObj m) →
  (m !! py "path" = None →
     do_POST d req = do_POST d (with_data req (<[py "path" := JStr []]> m)))
  ∧ (m !! py "content" = None →
     do_POST d req = do_POST d (with_data req (<[py "content" := JStr []]> m)))
  ∧ (∀ P t, m !! py "content" = None → m !! py "path" = Some (JStr P) →
     d !! (py "." ++ P) = Some (File t) →
     do_POST d req =
       {| disk := <[py "." ++ P := File []]> d;
          events := [send_response 200;
                     send_header (py "Content-type") (py "application/json");
                     end_headers; wfile_write json_success];
          finished := Ok () |})
  ∧ (m !! py "path" = None → d !! py "." = None →
     do_POST d req = {| disk := d; events := [send_error 404]; finished := Ok () |}).
Proof.
  intros Hpath Hdata. repeat split.
  - intros Hm. unfold do_POST, with_data. cbn. rewrite Hpath, Hdata. cbn.
    rewrite Hm, lookup_insert_eq. cbn.
    rewrite lookup_insert_ne; [done|].
    py_neq.
  - intros Hm. unfold do_POST, with_data. cbn. rewrite Hpath, Hdata. cbn.
    rewrite Hm, lookup_insert_eq.
    rewrite lookup_insert_ne; [done|].
    py_neq.
  - intros P t Hc Hp Hfile. unfold do_POST. rewrite Hpath, Hdata. cbn.
    rewrite Hp, Hc. cbn.
    assert (exists_ d (py "." ++ P) = true) as -> by (apply exists_true; eauto).
    cbn. unfold open_w. rewrite Hfile. cbn.
    by rewrite insert_insert_eq.
  - intros Hm Hdot. unfold do_POST. rewrite Hpath, Hdata. cbn.
    rewrite Hm. cbn.
    assert (exists_ d (py "." ++ []) = false) as ->; [|done].
    apply exists_false. by rewrite app_nil_r.
Qed.

(** *** Previews *)

Lemma good_preview_line_true (line : str) :
  good_preview_line (strip line) = true ↔ qualifying line.
Proof.
  unfold good_preview_line, qualifying.
  rewrite !andb_true_iff, !negb_true_iff, !bool_decide_eq_false, bool_decide_eq_true.
  tauto.
Qed.

Lemma good_preview_line_heading_or_blank (line : str) :
  heading_or_blank line → good_preview_line (strip line) = false.
Proof.
  unfold good_preview_line. intros [-> | ->]; [done|].
  by rewrite andb_false_r.
Qed.

Lemma preview_of_lines_skip (before rest : list str) :
  Forall (λ l, good_preview_line (strip l) = false) before →
  preview_of_lines (before ++ rest) = preview_of_lines rest.
Proof.
  induction 1 as [|l before Hl _ IH]; [done|].
  simpl. by rewrite Hl.
Qed.

(** C7. The preview of a file, whose lines are those of the text as it is
    read, every line end a line feed:
    - when each of its first ten lines is a heading or blank, it is the fixed
      text [Markdown documentation file];
    - when the first qualifying line is among the first ten and has 90
      characters once stripped, it is the first 80 of them followed by [...];
    - when the file cannot be read, whatever the error, it is the fixed text
      [File preview not available]. *)
Theorem get_file_preview_spec (d : gmap (list N) node) (file_path : str) :
  (∀ content,
     read_text d file_path = Ok content →
     Forall heading_or_blank (take 10 (readlines content)) →
     get_file_preview d file_path = py "Markdown documentation file")
  ∧ (∀ content before line after,
     read_text d file_path = Ok content →
     readlines content = before ++ line :: after →
     length before < 10 →
     Forall (λ l, ¬ qualifying l) before →
     qualifying line →
     length (strip line) = 90 →
     get_file_preview d file_path = take 80 (strip line) ++ py "...")
  ∧ (∀ e,
     read_text d file_path = Raise e →
     get_file_preview d file_path = py "File preview not available").
Proof.
  repeat split.
  - intros content Hread Hall. unfold get_file_preview. rewrite Hread.
    rewrite <- (app_nil_r (take 10 _)).
    rewrite preview_of_lines_skip; [done|].
    eapply Forall_impl; [exact Hall|].
    apply good_preview_line_heading_or_blank.
  - intros content before line after Hread Hlines Hlen Hbefore Hline H90.
    unfold get_file_preview. rewrite Hread, Hlines.
    rewrite take_app_ge by lia.
    destruct (10 - length before) as [|k] eqn:Hk; [lia|].
    rewrite firstn_cons.
    rewrite preview_of_lines_skip.
    + simpl. apply good_preview_line_true in Hline as ->.
      rewrite bool_decide_eq_true_2; [done | lia].
    + eapply Forall_impl; [exact Hbefore|]. intros l Hl. simpl in Hl.
      rewrite <- good_preview_line_true in Hl. by destruct (good_preview_line _).
  - intros e Hread. unfold get_file_preview. by rewrite Hread.
Qed.

(** *** The listing *)

Lemma str_le_total (a b : str) : str_le a b = false → str_le b a = true.
Proof.
  revert b. induction a as [|x a IH]; intros [|y b]; simpl; try done.
  intros [H1 H2]%orb_false_iff. apply N.ltb_ge in H1.
  destruct (x =? y)%N eqn:E.
  - apply N.eqb_eq in E as ->. simpl in H2.
    rewrite N.eqb_refl, (IH _ H2). simpl. by rewrite orb_true_r.
  - apply N.eqb_neq in E.
    assert ((y <? x)%N = true) as -> by (apply N.ltb_lt; lia). done.
Qed.

Lemma insert_by_name_perm (x : file_info) (l : list file_info) :
  insert_by_name x l ≡ₚ x :: l.
Proof.
  induction l as [|y l IH]; simpl; [done|].
  destruct (str_le _ _); [done|].
  rewrite IH. apply Permutation_swap.
Qed.

Lemma sorted_by_name_perm (l : list file_info) : sorted_by_name l ≡ₚ l.
Proof.
  induction l as [|x l IH]; simpl; [done|].
  by rewrite insert_by_name_perm, IH.
Qed.

Lemma insert_by_name_hd (x a : file_info) (l : list file_info) :
  name_le a x → HdRel name_le a l → HdRel name_le a (insert_by_name x l).
Proof.
  intros Hax Hl. destruct l as [|y l]; simpl.
  - by constructor.
  - destruct (str_le _ _); constructor; [done|].
    by inversion Hl.
Qed.

Lemma insert_by_name_sorted (x : file_info) (l : list file_info) :
  Sorted name_le l → Sorted name_le (insert_by_name x l).
Proof.
  induction 1 as [|y l Hl IH Hhd]; simpl.
  - repeat constructor.
  - destruct (str_le (name x) (name y)) eqn:E.
    + constructor; [by constructor|]. by constructor.
    + constructor; [done|].
      apply insert_by_name_hd; [|done]. by apply str_le_total.
Qed.

Lemma sorted_by_name_sorted (l : list file_info) : Sorted name_le (sorted_by_name l).
Proof.
  induction l as [|x l IH]; simpl; [constructor|].
  by apply insert_by_name_sorted.
Qed.

Lemma sorted_by_name_nil (l : list file_info) : sorted_by_name l = [] → l = [].
Proof.
  intros H. pose proof (sorted_by_name_perm l) as Hp. rewrite H in Hp.
  by apply Permutation_nil_l in Hp.
Qed.

Lemma category_of_cases (p : str) :
  category_of p = py "Core Documentation"
  ∨ category_of p = py "Project Files"
  ∨ category_of p = py "Role Commands".
Proof. unfold category_of. repeat case_match; auto. Qed.

(** The three buckets after the loop over the listing. *)
Lemma categorize_buckets (d : gmap (list N) node) (md_files : list str) (a b c : list file_info) :
  categorize d md_files
    [(py "Core Documentation", a); (py "Project Files", b); (py "Role Commands", c)]
  = [(py "Core Documentation", a ++ listed d md_files (py "Core Documentation"));
     (py "Project Files", b ++ listed d md_files (py "Project Files"));
     (py "Role Commands", c ++ listed d md_files (py "Role Commands"))].
Proof.
  revert a b c. unfold listed.
  induction md_files as [|p md IH]; intros a b c.
  - simpl. by rewrite !app_nil_r.
  - simpl categorize. rewrite !filter_cons.
    destruct (str_in (py "node_modules") p) eqn:Hnm.
    { rewrite IH. rewrite !decide_False by (by intros [? _]). done. }
    destruct (category_of_cases p) as [Hc | [Hc | Hc]]; rewrite Hc; simpl append_to.
    + rewrite bool_decide_eq_true_2 by done.
      rewrite IH.
      rewrite decide_True by done.
      rewrite !decide_False by (intros [_ Hne]; revert Hne; py_neq).
      rewrite fmap_cons. by rewrite <- !app_assoc.
    + rewrite !bool_decide_eq_false_2 by py_neq.
      rewrite bool_decide_eq_true_2 by done.
      rewrite IH.
      rewrite decide_False by (intros [_ Hne]; revert Hne; py_neq).
      rewrite decide_True by done.
      rewrite decide_False by (intros [_ Hne]; revert Hne; py_neq).
      rewrite fmap_cons. by rewrite <- !app_assoc.
    + rewrite !bool_decide_eq_false_2 by py_neq.
      rewrite bool_decide_eq_true_2 by done.
      rewrite IH.
      rewrite !decide_False by (intros [_ Hne]; revert Hne; py_neq).
      rewrite decide_True by done.
      rewrite fmap_cons. by rewrite <- !app_assoc.
Qed.

(** The listing is the list of the non-empty buckets, sorted, in the order
    Core Documentation, Project Files, Role Commands. *)
Lemma get_all_md_files_buckets (d : gmap (list N) node) (md_files : list str) :
  get_all_md_files d md_files =
  to_expected_format
    [(py "Core Documentation", listed d md_files (py "Core Documentation"));
     (py "Project Files", listed d md_files (py "Project Files"));
     (py "Role Commands", listed d md_files (py "Role Commands"))].
Proof. unfold get_all_md_files. by rewrite categorize_buckets. Qed.

Lemma elem_of_to_expected_format (categories : list (str * list file_info)) (category : str) (files : list file_info) :
  (category, files) ∈ to_expected_format categories ↔
  ∃ raw, (category, raw) ∈ categories ∧ raw ≠ [] ∧ files = sorted_by_name raw.
Proof.
  induction categories as [|[k raw] rest IH]; simpl.
  - split; [by intros ?%elem_of_nil | by intros (? & ?%elem_of_nil & _)].
  - destruct raw as [|x raw].
    + rewrite IH. split.
      * intros (r & Hin & Hne & ->). exists r. split; [by right | done].
      * intros (r & Hin & Hne & ->). exists r.
        apply elem_of_cons in Hin as [Heq | Hin]; [by simplify_eq | done].
    + rewrite elem_of_cons, IH. split.
      * intros [Heq | (r & Hin & Hne & ->)].
        -- injection Heq as -> ->. exists (x :: raw). split; [by left | done].
        -- exists r. split; [by right | done].
      * intros (r & Hin & Hne & ->).
        apply elem_of_cons in Hin as [Heq | Hin].
        -- left. by injection Heq as -> ->.
        -- right. by exists r.
Qed.

Lemma to_expected_format_order (categories : list (str * list file_info)) :
  (to_expected_format categories).*1 `sublist_of` categories.*1.
Proof.
  induction categories as [|[k raw] rest IH]; simpl; [done|].
  destruct raw; simpl; by constructor.
Qed.

Lemma elem_of_listed (d : gmap (list N) node) (md_files : list str) (category : str) (x : file_info) :
  x ∈ listed d md_files category ↔
  ∃ p, x = make_file_info d p ∧ p ∈ md_files
       ∧ str_in (py "node_modules") p = false ∧ category_of p = category.
Proof.
  unfold listed. rewrite list_elem_of_fmap.
  split; intros (p & -> & Hp); exists p.
  - apply list_elem_of_filter in Hp. naive_solver.
  - split; [done|]. apply list_elem_of_filter. naive_solver.
Qed.

Lemma make_file_info_inj (d : gmap (list N) node) (p q : str) :
  make_file_info d p = make_file_info d q → p = q.
Proof.
  intros H. apply (f_equal path) in H. cbn [path make_file_info] in H.
  by apply app_inv_head in H.
Qed.

(** Where a listed file ends up. *)
Lemma listed_file_bucket (d : gmap (list N) node) (md_files : list str) (p : str) :
  p ∈ md_files → str_in (py "node_modules") p = false →
  (∃ files, (category_of p, files) ∈ get_all_md_files d md_files
            ∧ make_file_info d p ∈ files)
  ∧ (∀ category files, (category, files) ∈ get_all_md_files d md_files →
       make_file_info d p ∈ files → category = category_of p).
Proof.
  intros Hp Hnm. rewrite get_all_md_files_buckets. split.
  - assert (make_file_info d p ∈ listed d md_files (category_of p)) as Hin
      by (apply elem_of_listed; eauto).
    exists (sorted_by_name (listed d md_files (category_of p))). split.
    + apply elem_of_to_expected_format. exists (listed d md_files (category_of p)).
      split; [|split; [|done]].
      * destruct (category_of_cases p) as [-> | [-> | ->]];
          repeat first [by left | right].
      * intros Hnil. rewrite Hnil in Hin. by apply elem_of_nil in Hin.
    + by rewrite sorted_by_name_perm.
  - intros category files (raw & Hraw & _ & ->)%elem_of_to_expected_format Hin.
    rewrite sorted_by_name_perm in Hin.
    assert (raw = listed d md_files category) as ->.
    { repeat (apply elem_of_cons in Hraw as [Heq | Hraw]; [by injection Heq as -> ->|]).
      by apply elem_of_nil in Hraw. }
    apply elem_of_listed in Hin as (q & Heq & _ & _ & <-).
    by apply make_file_info_inj in Heq as ->.
Qed.

(** C8. The listing of [/api/files]:
    - a listed [.claude/commands/coder.md] is an entry of the bucket
      [Role Commands], and of no other, with type [command];
    - a listed [AI-Roles.md] is an entry of the bucket [Core Documentation],
      and of no other, with type [roles];
    - the buckets come in the order Core Documentation, Project Files, Role
      Commands; a bucket is present exactly when a listed file falls in it;
      and the entries of a bucket are those files, sorted by name. *)
Theorem get_all_md_files_shape (d : gmap (list N) node) (md_files : list str) :
  (py ".claude/commands/coder.md" ∈ md_files →
     type (make_file_info d (py ".claude/commands/coder.md")) = py "command"
     ∧ (∃ files, (py "Role Commands", files) ∈ get_all_md_files d md_files
                 ∧ make_file_info d (py ".claude/commands/coder.md") ∈ files)
     ∧ (∀ category files, (category, files) ∈ get_all_md_files d md_files →
          make_file_info d (py ".claude/commands/coder.md") ∈ files →
          category = py "Role Commands"))
  ∧ (py "AI-Roles.md" ∈ md_files →
     type (make_file_info d (py "AI-Roles.md")) = py "roles"
     ∧ (∃ files, (py "Core Documentation", files) ∈ get_all_md_files d md_files
                 ∧ make_file_info d (py "AI-Roles.md") ∈ files)
     ∧ (∀ category files, (category, files) ∈ get_all_md_files d md_files →
          make_file_info d (py "AI-Roles.md") ∈ files →
          category = py "Core Documentation"))
  ∧ (get_all_md_files d md_files).*1
      `sublist_of` [py "Core Documentation"; py "Project Files"; py "Role Commands"]
  ∧ (∀ category files, (category, files) ∈ get_all_md_files d md_files →
       files ≠ [] ∧ Sorted name_le files ∧ files ≡ₚ listed d md_files category)
  ∧ (∀ category,
       category ∈ [py "Core Documentation"; py "Project Files"; py "Role Commands"] →
       listed d md_files category ≠ [] →
       ∃ files, (category, files) ∈ get_all_md_files d md_files).
Proof.
  split; [|split; [|split; [|split]]].
  - intros Hin.
    destruct (listed_file_bucket d md_files _ Hin) as [Hex Huniq];
      [vm_compute; reflexivity|].
    split; [vm_compute; reflexivity|]. done.
  - intros Hin.
    destruct (listed_file_bucket d md_files _ Hin) as [Hex Huniq];
      [vm_compute; reflexivity|].
    split; [vm_compute; reflexivity|]. done.
  - rewrite get_all_md_files_buckets. apply to_expected_format_order.
  - intros category files Hin. rewrite get_all_md_files_buckets in Hin.
    apply elem_of_to_expected_format in Hin as (raw & Hraw & Hne & ->).
    assert (raw = listed d md_files category) as ->.
    { repeat (apply elem_of_cons in Hraw as [Heq | Hraw]; [by injection Heq as -> ->|]).
      by apply elem_of_nil in Hraw. }
    split; [|split].
    + intros Hnil. by apply sorted_by_name_nil in Hnil.
    + apply sorted_by_name_sorted.
    + apply sorted_by_name_perm.
  - intros category Hcat Hne. rewrite get_all_md_files_buckets.
    exists (sorted_by_name (listed d md_files category)).
    apply elem_of_to_expected_format. exists (listed d md_files category).
    split; [|done].
    repeat (apply elem_of_cons in Hcat as [-> | Hcat]; [repeat first [by left | right]|]).
    by apply elem_of_nil in Hcat.
Qed.

(** ** Splitting the aggregate document and putting it together again *)

Section RoundTrip.
Variable isword : char → bool.
Implicit Types (s cur : str) (m : str → option nat).

(** The pieces of a split, concatenated, are the text that was split. *)
Lemma re_split_from_concat m k cur s :
  concat (re_split_from m k cur s) = cur ++ drop k s.
Proof.
  revert k cur. induction s as [|c s IH]; intros k cur.
  - simpl. by rewrite drop_nil.
  - destruct k as [|k].
    + cbn [re_split_from]. destruct (m (c :: s)) as [[|n]|] eqn:Hm.
      * rewrite IH. simpl. by rewrite <- app_assoc.
      * cbn [concat]. rewrite IH. simpl.
        by rewrite take_drop.
      * rewrite IH. simpl. by rewrite <- app_assoc.
    + simpl. apply IH.
Qed.

Lemma span_len_take (p : char → bool) s k :
  k ≤ span_len p s → span_len p (take k s) = k.
Proof.
  revert k. induction s as [|c s IH]; intros k; simpl.
  - intros ?. by replace k with 0 by lia.
  - destruct k as [|k]; [done|]. simpl.
    destruct (p c); [|lia]. intros ?. rewrite IH; [done | lia].
Qed.

(** A text matched as a role heading holds a role name. *)
Lemma search_role_name_heading s n :
  match_role_heading isword s = Some n →
  is_Some (search_role_name isword (take n s)).
Proof.
  unfold match_role_heading.
  destruct (startswith s (py "### @")) eqn:Hsw; [|done].
  apply startswith_spec in Hsw as [r ->].
  change (drop 5 (py "### @" ++ r)) with r.
  destruct (span_len (word_or_hyphen isword) r) as [|k] eqn:Hk; [done|].
  intros [= <-].
  change (take (5 + S k) (py "### @" ++ r)) with (py "### @" ++ take (S k) r).
  assert (span_len (word_or_hyphen isword) (take (S k) r) = S k) as Hspan
    by (apply span_len_take; lia).
  change (py "### @") with [35; 35; 35; 32; 64]%N.
  cbn [app]. rewrite !firstn_cons. cbn [search_role_name].
  change (35 =? 64)%N with false. change (32 =? 64)%N with false.
  change (64 =? 64)%N with true. cbn [andb].
  rewrite Hspan. simpl. eauto.
Qed.

(** With the bodies left as they are, the loop of [migrate_ai_roles_file]
    appends all the pieces after the first, in their order. *)
Lemma migrate_sections_unmodified k cur s :
  ∃ header rest,
    re_split_from (match_role_heading isword) k cur s = header :: rest
    ∧ migrate_sections isword (λ role_content _, (role_content, [])) rest
      = Ok (concat rest, []).
Proof.
  revert k cur. induction s as [|c s IH]; intros k cur.
  - exists cur, []. done.
  - destruct k as [|k]; [|apply IH].
    cbn [re_split_from].
    destruct (match_role_heading isword (c :: s)) as [[|n]|] eqn:Hm; [apply IH | | apply IH].
    destruct (IH n []) as (body & rest & Hsplit & Hrest).
    exists cur, (take (S n) (c :: s) :: body :: rest). rewrite Hsplit. split; [done|].
    destruct (search_role_name_heading _ _ Hm) as [role_name Hname].
    cbn [migrate_sections]. rewrite Hname, Hrest. done.
Qed.

(** C4. Splitting a document on the role-heading pattern and concatenating
    the preamble and then every heading and body in their order gives back the
    document, code point for code point; so does the migration loop itself
    when the bodies are left unmodified.  This holds for every document and
    for every reading of the class [\w]. *)
Theorem split_reassemble_roundtrip (content : str) :
  concat (re_split (match_role_heading isword) content) = content
  ∧ migrate_content isword (λ role_content _, (role_content, [])) content
    = Ok (content, []).
Proof.
  assert (concat (re_split (match_role_heading isword) content) = content) as Hcat
    by (unfold re_split; by rewrite re_split_from_concat).
  split; [done|].
  unfold migrate_content.
  destruct (migrate_sections_unmodified 0 [] content) as (header & rest & Hsplit & Hrest).
  unfold re_split in *. rewrite Hsplit in *. rewrite Hrest. simpl.
  by rewrite <- Hcat.
Qed.

End RoundTrip.

(** ** The section checks of [add_missing_elements] *)

(** C2, at a body that has the marker [WORKFLOW EVALUATION] under another
    number than 13 and no summary block: the guard sees the marker, the
    replacement looks for [13. WORKFLOW EVALUATION] and finds nothing, so no
    Summary & Confirmation block is placed before the marker, nor anywhere
    else, while [summary_confirmation] is reported as added. *)
Theorem summary_confirmation_not_anchored :
  let body := py "11. HANDOFF: pass the brief on
14. WORKFLOW EVALUATION: rate the session" in
  let result := add_missing_elements body (py "coder") in
  str_in (py "WORKFLOW EVALUATION") body = true
  ∧ str_in (py "SUMMARY & CONFIRMATION") body = false
  ∧ str_in (py "SUMMARY & CONFIRMATION") result.1 = false
  ∧ py "summary_confirmation" ∈ result.2.
Proof.
  cbv zeta. repeat split; try (vm_compute; reflexivity).
  apply list_elem_of_In. vm_compute. tauto.
Qed.

(** C1, at two bodies.  In the first the summary marker stands on an item 8:
    the first application finds the marker, adds no summary block, and then
    rewrites the item 8 line, marker included; the second application adds the
    block.  In the second an empty item 8 ends the body: the rewrite of the
    first application takes the heading of the block appended right after it,
    and the second application appends the whole block once more, so that its
    other heading is there twice. *)
Theorem add_missing_elements_twice_differs :
  (let once := (add_missing_elements (py "8. SUMMARY & CONFIRMATION: recap the answers") (py "coder")).1 in
   let again := add_missing_elements once (py "coder") in
   again.1 ≠ once
   ∧ again.1 = once ++ [newline] ++ confirmation_text
   ∧ again.2 = [py "summary_confirmation"])
  ∧ (let once := (add_missing_elements (py "7. Review
8. ") (py "coder")).1 in
   let again := add_missing_elements once (py "coder") in
   again.1 ≠ once
   ∧ again.2 = [py "interaction_pattern"]
   ∧ occurrences (py "## Question Hierarchy Pattern") once = 1
   ∧ occurrences (py "## Question Hierarchy Pattern") again.1 = 2).
Proof.
  cbv zeta. split.
  - split; [|split; vm_compute; reflexivity].
    intros H. apply (f_equal length) in H. vm_compute in H. discriminate H.
  - split; [|repeat split; vm_compute; reflexivity].
    intros H. apply (f_equal length) in H. vm_compute in H. discriminate H.
Qed.

(** ** The instrumentation rewrite, line by line *)

Section Rewrite.
Implicit Types (s l cur tail : str) (ls : list str) (m : str → option nat).

(** The scan steps over the match it has just replaced. *)
Lemma re_sub_from_skip m repl w s :
  re_sub_from m repl (length w) (w ++ s) = re_sub_from m repl 0 s.
Proof. induction w as [|c w IH]; simpl; done. Qed.

Lemma re_sub_here m repl s rest :
  m (s ++ rest) = Some (length s) → s ≠ [] →
  re_sub m repl (s ++ rest) = repl ++ re_sub m repl rest.
Proof.
  intros Hm Hs. destruct s as [|c s]; [done|].
  unfold re_sub. change ((c :: s) ++ rest) with (c :: (s ++ rest)) in *.
  cbn [re_sub_from]. rewrite Hm. cbn [length].
  by rewrite re_sub_from_skip.
Qed.

Lemma re_sub_next m repl c s :
  m (c :: s) = None → re_sub m repl (c :: s) = c :: re_sub m repl s.
Proof. unfold re_sub. simpl. by intros ->. Qed.

Lemma span_len_le (p : char → bool) s : span_len p s ≤ length s.
Proof. induction s as [|c s IH]; simpl; [done|]. destruct (p c); lia. Qed.

Lemma span_len_lt (p : char → bool) s :
  forallb p s = false → span_len p s < length s.
Proof.
  induction s as [|c s IH]; simpl; [done|].
  destruct (p c); simpl; [|lia]. intros ?%IH. lia.
Qed.

(** A run that stops inside [s] is not changed by what follows [s]. *)
Lemma span_len_app_lt (p : char → bool) s tail :
  span_len p s < length s → span_len p (s ++ tail) = span_len p s.
Proof.
  induction s as [|c s IH]; simpl; [lia|].
  destruct (p c); [|done]. intros ?. rewrite IH; [done | lia].
Qed.

(** A run over all of [s] stops at a tail that is empty or starts with a
    character outside the class. *)
Lemma span_len_app_all (p : char → bool) s tail :
  forallb p s = true → span_len p tail = 0 →
  span_len p (s ++ tail) = length s.
Proof.
  induction s as [|c s IH]; simpl; [done|].
  intros [-> Hs]%andb_true_iff Ht. by rewrite IH.
Qed.

Lemma forallb_drop (p : char → bool) s k :
  forallb p s = true → forallb p (drop k s) = true.
Proof.
  revert k. induction s as [|c s IH]; intros [|k]; simpl; try done.
  intros [_ Hs]%andb_true_iff. by apply IH.
Qed.

Lemma isspace_newline_tail tail :
  tail = [] ∨ (∃ rest, tail = newline :: rest) → span_len dot tail = 0.
Proof. by intros [-> | [rest ->]]. Qed.

(** A match that starts on a line with a character after its white space
    takes the rest of that line and nothing more. *)
Lemma match_item8_line l tail :
  one_line l → starts_item8 l = true →
  forallb isspace (drop 2 l) = false →
  tail = [] ∨ (∃ rest, tail = newline :: rest) →
  match_item8 (l ++ tail) = Some (length l).
Proof.
  intros Hl Hst Hns Htail.
  destruct l as [|a [|b [|w l]]]; try done.
  simpl in Hst. apply andb_true_iff in Hst as [Hab Hw].
  change (drop 2 (a :: b :: w :: l)) with (w :: l) in Hns.
  pose proof (span_len_lt _ _ Hns) as Hlt.
  pose proof (span_len_app_lt isspace (w :: l) tail Hlt) as Happ.
  unfold match_item8. cbn [app]. rewrite Hab.
  change (w :: l ++ tail) with ((w :: l) ++ tail). rewrite Happ.
  destruct (span_len isspace (w :: l)) as [|k] eqn:Hk.
  { simpl in Hk. by rewrite Hw in Hk. }
  rewrite drop_app_le by lia.
  rewrite span_len_app_all.
  - f_equal. rewrite length_drop. simpl length in *. lia.
  - apply forallb_drop. unfold one_line in Hl. simpl in Hl.
    by apply andb_true_iff in Hl as [_ [_ Hl]%andb_true_iff].
  - by apply isspace_newline_tail.
Qed.

Lemma match_item8_starts s : starts_item8 s = false → match_item8 s = None.
Proof.
  unfold starts_item8, match_item8.
  destruct s as [|a [|b [|w s]]]; try done.
  - by destruct (_ && _).
  - destruct ((a =? 56)%N && (b =? 46)%N); [|done]. simpl. by intros ->.
Qed.

Lemma match_item8_newline s : match_item8 (newline :: s) = None.
Proof. by destruct s. Qed.

(** Off the end of a line, a place where no match starts on the line is a
    place where none starts in the text, unless the line ends there in [8.]. *)
Lemma starts_item8_app l tail :
  l ≠ [] → l ≠ [56; 46]%N → starts_item8 l = false →
  tail = [] ∨ (∃ rest, tail = newline :: rest) →
  starts_item8 (l ++ tail) = false.
Proof.
  intros Hne H8 Hst Htail.
  destruct l as [|a [|b [|w l]]]; try done.
  - destruct Htail as [-> | [rest ->]]; simpl; [done|].
    destruct rest; [done|]. by rewrite andb_false_r.
  - destruct Htail as [-> | [rest ->]]; simpl; [done|].
    destruct (a =? 56)%N eqn:Ha; [|done]. destruct (b =? 46)%N eqn:Hb; [|done].
    apply N.eqb_eq in Ha as ->. by apply N.eqb_eq in Hb as ->.
Qed.

(** *** Lines *)

Lemma join_cons sep l ls : ls ≠ [] → join sep (l :: ls) = l ++ sep ++ join sep ls.
Proof. by destruct ls. Qed.

Lemma join_two sep l1 l2 : join sep [l1; l2] = l1 ++ sep ++ l2.
Proof. done. Qed.

Lemma join_app sep ls1 ls2 :
  ls1 ≠ [] → ls2 ≠ [] → join sep (ls1 ++ ls2) = join sep ls1 ++ sep ++ join sep ls2.
Proof.
  intros H1 H2. induction ls1 as [|l ls1 IH]; [done|].
  destruct ls1 as [|l' ls1].
  - simpl app. by rewrite join_cons.
  - change ((l :: l' :: ls1) ++ ls2) with (l :: ((l' :: ls1) ++ ls2)).
    rewrite !join_cons by done. rewrite IH by done.
    by rewrite <- !app_assoc.
Qed.

Lemma split_lines_from_nonempty cur s : split_lines_from cur s ≠ [].
Proof.
  revert cur. induction s as [|c s IH]; intros cur; simpl; [done|].
  by destruct (c =? newline)%N.
Qed.

(** The lines of a text, joined by line feeds, are the text. *)
Lemma join_split_lines_from cur s : join [newline] (split_lines_from cur s) = cur ++ s.
Proof.
  revert cur. induction s as [|c s IH]; intros cur; simpl.
  - by rewrite app_nil_r.
  - destruct (c =? newline)%N eqn:E.
    + apply N.eqb_eq in E as ->.
      rewrite join_cons by apply split_lines_from_nonempty.
      by rewrite IH.
    + rewrite IH. by rewrite <- app_assoc.
Qed.

Lemma join_split_lines s : join [newline] (split_lines s) = s.
Proof. apply join_split_lines_from. Qed.

Lemma one_line_app l1 l2 : one_line l1 → one_line l2 → one_line (l1 ++ l2).
Proof. unfold one_line. rewrite forallb_app. by intros -> ->. Qed.

Lemma one_line_take l k : one_line l → one_line (take k l).
Proof.
  unfold one_line. revert k. induction l as [|c l IH]; intros [|k]; simpl; try done.
  intros [-> Hl]%andb_true_iff. by apply IH.
Qed.

Lemma split_lines_from_one_line cur s :
  one_line cur → Forall one_line (split_lines_from cur s).
Proof.
  revert cur. induction s as [|c s IH]; intros cur Hcur; simpl.
  - by constructor.
  - destruct (c =? newline)%N eqn:E.
    + constructor; [done|]. by apply IH.
    + apply IH. apply one_line_app; [done|].
      unfold one_line, dot. simpl. by rewrite E.
Qed.

Lemma split_lines_from_line cur l :
  one_line l → split_lines_from cur l = [cur ++ l].
Proof.
  revert cur. induction l as [|c l IH]; intros cur Hl; simpl.
  - by rewrite app_nil_r.
  - unfold one_line in Hl. simpl in Hl. apply andb_true_iff in Hl as [Hc Hl].
    unfold dot in Hc. apply negb_true_iff in Hc as ->.
    rewrite IH by done. by rewrite <- app_assoc.
Qed.

Lemma split_lines_from_app cur l rest :
  one_line l →
  split_lines_from cur (l ++ newline :: rest) = (cur ++ l) :: split_lines_from [] rest.
Proof.
  revert cur. induction l as [|c l IH]; intros cur Hl; simpl.
  - by rewrite app_nil_r.
  - unfold one_line in Hl. simpl in Hl. apply andb_true_iff in Hl as [Hc Hl].
    unfold dot in Hc. apply negb_true_iff in Hc as ->.
    rewrite IH by done. by rewrite <- app_assoc.
Qed.

(** Lines without line feed, joined and split again, are the same lines. *)
Lemma split_lines_join ls :
  ls ≠ [] → Forall one_line ls → split_lines (join [newline] ls) = ls.
Proof.
  intros Hne Hall. induction Hall as [|l ls Hl Hls IH]; [done|].
  destruct ls as [|l' ls].
  - simpl. unfold split_lines. by rewrite split_lines_from_line.
  - rewrite join_cons by done. unfold split_lines in *.
    change ([newline] ++ join [newline] (l' :: ls))
      with (newline :: join [newline] (l' :: ls)).
    rewrite split_lines_from_app by done. by rewrite IH.
Qed.

(** *** The rewrite of one line, and of all of them *)

Lemma rewrite_line_nonempty l : rewrite_line l ≠ [].
Proof. unfold rewrite_line. by destruct (find_item8 l). Qed.

Lemma rewrite_line_one_line l : one_line l → Forall one_line (rewrite_line l).
Proof.
  intros Hl. unfold rewrite_line. destruct (find_item8 l) as [i|].
  - repeat constructor.
    apply one_line_app; [by apply one_line_take | by vm_compute].
  - by repeat constructor.
Qed.

Lemma re_sub_line l tail :
  one_line l → line_local l = true →
  tail = [] ∨ (∃ rest, tail = newline :: rest) →
  re_sub match_item8 (instrumentation_text ++ [newline] ++ py "9. ") (l ++ tail)
  = join [newline] (rewrite_line l)
    ++ re_sub match_item8 (instrumentation_text ++ [newline] ++ py "9. ") tail.
Proof.
  intros Hl Hloc Htail. induction l as [|c l IH]; [done|].
  unfold rewrite_line. cbn [find_item8 line_local] in *.
  destruct (starts_item8 (c :: l)) eqn:Hst.
  - apply negb_true_iff in Hloc.
    rewrite re_sub_here; [|by apply match_item8_line|done].
    by rewrite join_two, take_0, app_nil_l.
  - apply andb_true_iff in Hloc as [H8%negb_true_iff%bool_decide_eq_false Hloc].
    assert (one_line l) as Hl'.
    { unfold one_line in *. simpl in Hl. by apply andb_true_iff in Hl as [_ ?]. }
    change ((c :: l) ++ tail) with (c :: (l ++ tail)).
    rewrite re_sub_next.
    2:{ apply match_item8_starts. by apply (starts_item8_app (c :: l)). }
    rewrite IH by done. unfold rewrite_line.
    destruct (find_item8 l) as [i|]; simpl; done.
Qed.

Lemma re_sub_lines ls :
  ls ≠ [] → Forall one_line ls → Forall (λ l, line_local l = true) ls →
  re_sub match_item8 (instrumentation_text ++ [newline] ++ py "9. ") (join [newline] ls)
  = join [newline] (ls ≫= rewrite_line).
Proof.
  intros Hne Hone Hloc. induction Hone as [|l ls Hl Hls IH]; [done|].
  apply Forall_cons in Hloc as [Hlloc Hloc].
  destruct ls as [|l' ls].
  - simpl. rewrite app_nil_r. rewrite <- (app_nil_r l) at 1.
    rewrite re_sub_line by auto. by rewrite app_nil_r.
  - rewrite join_cons by done.
    change ([newline] ++ join [newline] (l' :: ls))
      with (newline :: join [newline] (l' :: ls)).
    rewrite re_sub_line by eauto.
    rewrite re_sub_next by apply match_item8_newline. rewrite IH by done.
    rewrite (bind_cons rewrite_line l).
    rewrite join_app; [done | apply rewrite_line_nonempty |].
    rewrite bind_cons. intros [H _]%app_eq_nil. by apply rewrite_line_nonempty in H.
Qed.

End Rewrite.

(** ** The instrumentation block *)

Lemma add_missing_elements_eq (role_content role_name : str) :
  add_missing_elements role_content role_name
  = check_instrumentation (sections_checked role_content role_name).
Proof. done. Qed.

(** C3, as worded, fails: with two lists that each have an item 8, both items
    are rewritten, not the first alone. *)
Lemma instrumentation_not_only_first :
  str_in (py "8. ") (py "## Checklist A
8. Verify inputs
## Checklist B
8. Verify outputs") = true
  ∧ str_in (py "INSTRUMENTATION") (py "## Checklist A
8. Verify inputs
## Checklist B
8. Verify outputs") = false
  ∧ ¬ only_first_item8_replaced
        (py "## Checklist A
8. Verify inputs
## Checklist B
8. Verify outputs")
        (add_missing_elements (py "## Checklist A
8. Verify inputs
## Checklist B
8. Verify outputs") (py "coder")).1.
Proof.
  split; [vm_compute; reflexivity|]. split; [vm_compute; reflexivity|].
  intros (before & line & after & appended & Hsplit & Hbefore & Hline & Hres).
  assert (split_lines (py "## Checklist A
8. Verify inputs
## Checklist B
8. Verify outputs")
          = [py "## Checklist A"; py "8. Verify inputs";
             py "## Checklist B"; py "8. Verify outputs"]) as Hlines
    by (vm_compute; reflexivity).
  rewrite Hlines in Hsplit. clear Hlines.
  destruct before as [|b0 [|b1 before]].
  - injection Hsplit as <- _. clear Hres Hbefore.
    destruct Hline as [i Hline]. vm_compute in Hline. discriminate Hline.
  - injection Hsplit as <- <- <-.
    apply (f_equal (λ l, l !! 4)) in Hres. vm_compute in Hres. discriminate Hres.
  - injection Hsplit as <- <- _.
    apply Forall_cons in Hbefore as [_ [Hb1 _]%Forall_cons].
    vm_compute in Hb1. discriminate Hb1.
Qed.

(** C3, amended.  When the content that reaches the instrumentation block has
    [8. ] and no [INSTRUMENTATION], and the matches stay on their lines, the
    result is that content with every line that has [8.] and white space
    rewritten, not the first one only: the line is cut at the first such
    place, the bullet is put there, and a line [9. ] follows.  The lines
    without such a place are unchanged, and [instrumentation] is recorded. *)
Theorem instrumentation_rewrites_every_item8 (role_content role_name : str) :
  str_in (py "8. ") (sections_checked role_content role_name).1 = true →
  str_in (py "INSTRUMENTATION") (sections_checked role_content role_name).1 = false →
  Forall (λ l, line_local l = true)
         (split_lines (sections_checked role_content role_name).1) →
  split_lines (add_missing_elements role_content role_name).1
  = split_lines (sections_checked role_content role_name).1 ≫= rewrite_line
  ∧ (add_missing_elements role_content role_name).2
    = (sections_checked role_content role_name).2 ++ [py "instrumentation"].
Proof.
  intros H8 Hinstr Hloc. rewrite add_missing_elements_eq.
  destruct (sections_checked role_content role_name) as [content enhancements].
  simpl in *. unfold check_instrumentation. rewrite H8, Hinstr. simpl.
  split; [|done].
  rewrite <- (join_split_lines content) at 1.
  pose proof (split_lines_from_one_line [] content eq_refl) as Hone.
  pose proof (split_lines_from_nonempty [] content) as Hne.
  fold (split_lines content) in Hone, Hne.
  rewrite re_sub_lines by done.
  apply split_lines_join.
  - destruct (split_lines content) as [|l ls]; [done|].
    rewrite bind_cons. intros [H _]%app_eq_nil.
    by apply rewrite_line_nonempty in H.
  - apply Forall_bind. eapply Forall_impl; [exact Hone|].
    apply rewrite_line_one_line.
Qed.

Lemma forallb_Forall {A} (f : A → bool) (l : list A) :
  forallb f l = true → Forall (λ x, f x = true) l.
Proof.
  induction l as [|x l IH]; simpl; [by constructor|].
  intros [? ?]%andb_true_iff. constructor; auto.
Qed.

(** ** The statements at concrete inputs *)

Lemma instrumentation_rewrites_every_item8_witness :
  split_lines (add_missing_elements (py "## Checklist A
8. Verify inputs
## Checklist B
8. Verify outputs") (py "coder")).1
  = split_lines (sections_checked (py "## Checklist A
8. Verify inputs
## Checklist B
8. Verify outputs") (py "coder")).1 ≫= rewrite_line
  ∧ (add_missing_elements (py "## Checklist A
8. Verify inputs
## Checklist B
8. Verify outputs") (py "coder")).2
    = (sections_checked (py "## Checklist A
8. Verify inputs
## Checklist B
8. Verify outputs") (py "coder")).2 ++ [py "instrumentation"].
Proof.
  apply instrumentation_rewrites_every_item8.
  - vm_compute. reflexivity.
  - vm_compute. reflexivity.
  - apply forallb_Forall. vm_compute. reflexivity.
Defined.

Lemma do_POST_missing_keys_default_witness :
  do_POST {[ py "./README.md" := File (py "hello") ]}
    {| self_path := py "/api/save"; parsed_path := py "/api/save";
       query_params := ∅;
       data := Ok (JObj {[ py "path" := JStr (py "/README.md") ]}) |}
  = {| disk := <[py "." ++ py "/README.md" := File []]>
                 {[ py "./README.md" := File (py "hello") ]};
       events := [send_response 200;
                  send_header (py "Content-type") (py "application/json");
                  end_headers; wfile_write json_success];
       finished := Ok () |}.
Proof.
  destruct (do_POST_missing_keys_default
              {[ py "./README.md" := File (py "hello") ]}
              {| self_path := py "/api/save"; parsed_path := py "/api/save";
                 query_params := ∅;
                 data := Ok (JObj {[ py "path" := JStr (py "/README.md") ]}) |}
              {[ py "path" := JStr (py "/README.md") ]}
              eq_refl eq_refl) as (_ & _ & Hcontent & _).
  apply (Hcontent (py "/README.md") (py "hello")).
  - vm_compute. reflexivity.
  - vm_compute. reflexivity.
  - vm_compute. reflexivity.
Defined.

Lemma get_file_preview_spec_witness :
  get_file_preview {[ py "notes.md" := File (py "# Title

## Section
") ]} (py "notes.md") = py "Markdown documentation file"
  ∧ get_file_preview {[ py "long.md" := File (py "# Title

This long opening sentence of the document runs to exactly ninety characters, no more, ok.
The end.") ]} (py "long.md")
    = py "This long opening sentence of the document runs to exactly ninety characters, no" ++ py "..."
  ∧ get_file_preview ∅ (py "absent.md") = py "File preview not available".
Proof.
  split; [|split].
  - destruct (get_file_preview_spec {[ py "notes.md" := File (py "# Title

## Section
") ]} (py "notes.md")) as (Hfallback & _ & _).
    apply (Hfallback (py "# Title

## Section
")).
    + vm_compute. reflexivity.
    + repeat constructor; first [by left; vm_compute | by right; vm_compute].
  - destruct (get_file_preview_spec {[ py "long.md" := File (py "# Title

This long opening sentence of the document runs to exactly ninety characters, no more, ok.
The end.") ]} (py "long.md")) as (_ & Hlong & _).
    apply (Hlong (py "# Title

This long opening sentence of the document runs to exactly ninety characters, no more, ok.
The end.")
             [py "# Title" ++ [newline]; [newline]]
             (py "This long opening sentence of the document runs to exactly ninety characters, no more, ok." ++ [newline])
             [py "The end."]).
    + vm_compute. reflexivity.
    + vm_compute. reflexivity.
    + simpl. lia.
    + repeat constructor; intros (Hne & Hhash & Hlen);
        vm_compute in Hne, Hhash; congruence.
    + split; [|split].
      * by vm_compute.
      * vm_compute. reflexivity.
      * vm_compute. lia.
    + vm_compute. reflexivity.
  - destruct (get_file_preview_spec ∅ (py "absent.md")) as (_ & _ & Herror).
    apply (Herror FileNotFoundError). vm_compute. reflexivity.
Defined.

Lemma get_all_md_files_shape_witness :
  (type (make_file_info ∅ (py ".claude/commands/coder.md")) = py "command"
   ∧ (∃ files, (py "Role Commands", files)
                 ∈ get_all_md_files ∅ [py "docs/guide.md"; py ".claude/commands/coder.md";
                                       py "node_modules/x/README.md"; py "AI-Roles.md"]
               ∧ make_file_info ∅ (py ".claude/commands/coder.md") ∈ files))
  ∧ (type (make_file_info ∅ (py "AI-Roles.md")) = py "roles"
   ∧ (∃ files, (py "Core Documentation", files)
                 ∈ get_all_md_files ∅ [py "docs/guide.md"; py ".claude/commands/coder.md";
                                       py "node_modules/x/README.md"; py "AI-Roles.md"]
               ∧ make_file_info ∅ (py "AI-Roles.md") ∈ files)).
Proof.
  destruct (get_all_md_files_shape ∅ [py "docs/guide.md"; py ".claude/commands/coder.md";
                                      py "node_modules/x/README.md"; py "AI-Roles.md"])
    as (Hcoder & Hroles & _).
  split.
  - destruct Hcoder as (Htype & Hin & _); [|done].
    apply list_elem_of_In. vm_compute. tauto.
  - destruct Hroles as (Htype & Hin & _); [|done].
    apply list_elem_of_In. vm_compute. tauto.
Defined.

(** ** When a second application changes nothing *)

Section Idempotence.
Implicit Types (s r t u v pre old : str) (st : str * list str).

Lemma inserted_app_keep pre a w s r :
  inserted pre a s r → inserted pre a (w ++ s) (w ++ r).
Proof. intros H. induction w as [|x w IH]; simpl; [done | by constructor]. Qed.

(** Replacing [old] by a text that ends with [old] only inserts. *)
Lemma replace_inserted pre a old s :
  inserted pre a s (replace s (a :: old) (pre ++ a :: old)).
Proof.
  remember (length s) as n eqn:Hn. revert s Hn.
  induction n as [n IH] using lt_wf_ind. intros s ->.
  destruct s as [|x s]; [constructor|].
  destruct (startswith (x :: s) (a :: old)) eqn:Hsw.
  - apply startswith_spec in Hsw as [s2 Hs2]. rewrite Hs2.
    rewrite replace_here by done.
    rewrite <- app_assoc. change ((a :: old) ++ ?z) with (a :: (old ++ z)).
    constructor. apply inserted_app_keep.
    apply (IH (length s2)); [|done].
    rewrite Hs2. simpl. rewrite length_app. lia.
  - rewrite replace_next by done. constructor.
    apply (IH (length s)); [simpl; lia | done].
Qed.

Lemma inserted_startswith pre a s r t :
  inserted pre a s r → forallb (λ c, negb (c =? a)%N) t = true →
  startswith s t = true → startswith r t = true.
Proof.
  intros Hins. revert t. induction Hins as [|x s r _ IH|s r _ IH]; intros t Ht Hsw.
  - done.
  - destruct t as [|y t]; [done|]. simpl in *.
    apply andb_true_iff in Ht as [_ Ht]. apply andb_true_iff in Hsw as [-> Hsw].
    simpl. by apply IH.
  - destruct t as [|y t]; [by rewrite startswith_nil|]. simpl in *.
    apply andb_true_iff in Ht as [Hy _]. apply andb_true_iff in Hsw as [Hya _].
    by rewrite Hya in Hy.
Qed.

(** A text without the character [a] that occurs before the insertions still
    occurs after them. *)
Lemma inserted_str_in pre a s r t :
  inserted pre a s r → forallb (λ c, negb (c =? a)%N) t = true →
  str_in t s = true → str_in t r = true.
Proof.
  intros Hins Ht. induction Hins as [|x s r Hins IH|s r Hins IH]; intros Hin.
  - done.
  - simpl in Hin. apply orb_true_iff in Hin as [Hsw | Hin].
    + simpl. apply orb_true_iff. left.
      by eapply inserted_startswith; [constructor | |].
    + simpl. apply orb_true_iff. right. by apply IH.
  - destruct t as [|y t].
    { apply str_in_spec. by exists [], (pre ++ a :: r). }
    simpl in Hin. apply orb_true_iff in Hin as [Hsw | Hin].
    + simpl in Ht, Hsw. apply andb_true_iff in Ht as [Hy _].
      apply andb_true_iff in Hsw as [Hya _]. by rewrite Hya in Hy.
    + apply str_in_app_r. change (a :: r) with ([a] ++ r). apply str_in_app_r.
      by apply IH.
Qed.

(** Where the old text occurs, the new text occurs afterwards. *)
Lemma replace_occurs s old new :
  old ≠ [] → str_in old s = true → ∃ u v, replace s old new = u ++ new ++ v.
Proof.
  intros Hold. induction s as [|x s IH]; intros Hin.
  - by destruct old.
  - simpl in Hin. destruct (startswith (x :: s) old) eqn:Hsw.
    + apply startswith_spec in Hsw as [s2 ->].
      rewrite replace_here by done. by exists [], (replace s2 old new).
    + rewrite replace_next by done. simpl in Hin.
      destruct (IH Hin) as (u & v & ->). by exists (x :: u), v.
Qed.

(** Where [8. ] occurs, the rewrite puts its replacement text. *)
Lemma re_sub_occurs repl s :
  str_in (py "8. ") s = true →
  ∃ u v, re_sub match_item8 repl s = u ++ repl ++ v.
Proof.
  induction s as [|x s IH]; intros Hin; [done|].
  destruct (match_item8 (x :: s)) as [[|n]|] eqn:Hm.
  - unfold match_item8 in Hm. destruct s as [|b rest]; [done|].
    destruct ((x =? 56)%N && (b =? 46)%N); [|done].
    by destruct (span_len isspace rest).
  - exists [], (re_sub_from match_item8 repl n s).
    unfold re_sub. cbn [re_sub_from]. by rewrite Hm.
  - rewrite re_sub_next by done.
    cbn [str_in] in Hin. apply orb_true_iff in Hin as [Hsw | Hin].
    + apply (startswith_spec _ (py "8. ")) in Hsw as [s2 Hs2].
      rewrite Hs2 in Hm. vm_compute in Hm. discriminate Hm.
    + destruct (IH Hin) as (u & v & ->). by exists (x :: u), v.
Qed.

(** After the instrumentation block either the bullet is there or there is no
    [8. ] to hang it on. *)
Lemma check_instrumentation_post st :
  str_in (py "INSTRUMENTATION") (check_instrumentation st).1 = true
  ∨ str_in (py "8. ") (check_instrumentation st).1 = false.
Proof.
  destruct st as [c e]. unfold check_instrumentation.
  destruct (str_in (py "INSTRUMENTATION") c) eqn:Hi; cbn [fst negb andb]; [by left|].
  destruct (str_in (py "8. ") c) eqn:H8; cbn [fst negb andb]; [|by right].
  left. destruct (re_sub_occurs (instrumentation_text ++ [newline] ++ py "9. ") c H8)
    as (u & v & ->).
  apply str_in_app_r, str_in_app_l, str_in_app_l. by vm_compute.
Qed.

(** A content in which every guard of [add_missing_elements] finds what it
    looks for, or finds nothing to work on, is returned as it is. *)
Lemma add_missing_elements_fixed (r role_name : str) :
  str_in (py "## Interactive Session Structure") r = true →
  str_in (py "## Standard Operating Procedures") r = true →
  str_in (py "## Example Usage") r = true →
  (str_in (py "SUMMARY & CONFIRMATION") r = true
   ∨ (str_in (py "WORKFLOW EVALUATION") r = true
      ∧ str_in (py "13. WORKFLOW EVALUATION") r = false)) →
  (str_in (py "INSTRUMENTATION") r = true ∨ str_in (py "8. ") r = false) →
  (add_missing_elements r role_name).1 = r.
Proof.
  intros Hiss Hsop Hex Hsc Hin.
  unfold add_missing_elements, check_interaction_pattern. rewrite Hiss. cbn [negb].
  unfold check_standard_operating_procedures. rewrite Hsop. cbn [negb].
  unfold check_example_usage. rewrite Hex. cbn [negb].
  unfold check_summary_confirmation, check_instrumentation.
  destruct Hsc as [-> | [Hwe H13]]; cbn [negb].
  - by destruct Hin as [-> | ->]; cbn [negb andb]; [|rewrite andb_false_r].
  - destruct (str_in (py "SUMMARY & CONFIRMATION") r); cbn [negb].
    + by destruct Hin as [-> | ->]; cbn [negb andb]; [|rewrite andb_false_r].
    + rewrite Hwe, (replace_absent _ _ _ H13).
      by destruct Hin as [-> | ->]; cbn [negb andb]; [|rewrite andb_false_r].
Qed.

Lemma pattern_has_heading (role_name : str) :
  str_in (py "## Interactive Session Structure")
         (default pattern_default (question_structures !! role_name)) = true.
Proof.
  destruct (question_structures !! role_name) as [p|] eqn:E; [|by vm_compute].
  apply elem_of_list_to_map_2 in E.
  repeat (apply elem_of_cons in E as [[= _ ->] | E]; [by vm_compute|]).
  by apply elem_of_nil in E.
Qed.

(** The first three blocks leave their headings in the content, and keep what
    was there. *)
Lemma check_interaction_pattern_has role_name st :
  str_in (py "## Interactive Session Structure")
         (check_interaction_pattern role_name st).1 = true.
Proof.
  destruct st as [c e]. unfold check_interaction_pattern.
  destruct (str_in _ c) eqn:E; cbn [fst negb andb]; [done|].
  unfold add_interaction_pattern. apply str_in_app_r, str_in_app_r.
  apply pattern_has_heading.
Qed.

Lemma check_standard_operating_procedures_has role_name st :
  str_in (py "## Standard Operating Procedures")
         (check_standard_operating_procedures role_name st).1 = true.
Proof.
  destruct st as [c e]. unfold check_standard_operating_procedures.
  destruct (str_in _ c) eqn:E; cbn [fst negb andb]; [done|].
  unfold add_standard_operating_procedures.
  apply str_in_app_r, str_in_app_r, str_in_app_l. by vm_compute.
Qed.

Lemma check_example_usage_has role_name st :
  str_in (py "## Example Usage") (check_example_usage role_name st).1 = true.
Proof.
  destruct st as [c e]. unfold check_example_usage.
  destruct (str_in _ c) eqn:E; cbn [fst negb andb]; [done|].
  unfold add_example_usage.
  apply str_in_app_r, str_in_app_r, str_in_app_l. by vm_compute.
Qed.

Lemma check_standard_operating_procedures_keeps role_name st t :
  str_in t st.1 = true →
  str_in t (check_standard_operating_procedures role_name st).1 = true.
Proof.
  destruct st as [c e]. unfold check_standard_operating_procedures.
  destruct (str_in _ c); cbn [fst negb andb]; [done|]. apply str_in_app_l.
Qed.

Lemma check_example_usage_keeps role_name st t :
  str_in t st.1 = true → str_in t (check_example_usage role_name st).1 = true.
Proof.
  destruct st as [c e]. unfold check_example_usage.
  destruct (str_in _ c); cbn [fst negb andb]; [done|]. apply str_in_app_l.
Qed.

Lemma evaluation_marker_eq :
  py "13. WORKFLOW EVALUATION" = 49%N :: py "3. WORKFLOW EVALUATION".
Proof. by vm_compute. Qed.

(** The summary block keeps every text that has no [1] in it. *)
Lemma check_summary_confirmation_keeps st t :
  forallb (λ c, negb (c =? 49)%N) t = true →
  str_in t st.1 = true → str_in t (check_summary_confirmation st).1 = true.
Proof.
  intros Ht. destruct st as [c e]. unfold check_summary_confirmation.
  destruct (str_in (py "SUMMARY & CONFIRMATION") c); cbn [fst negb andb]; [done|].
  destruct (str_in (py "WORKFLOW EVALUATION") c); cbn [fst negb andb]; [|apply str_in_app_l].
  rewrite evaluation_marker_eq, (app_assoc confirmation_text [newline]).
  intros Hin. eapply inserted_str_in; [apply replace_inserted | exact Ht | exact Hin].
Qed.

(** After the summary block the next run finds the marker, or finds the
    evaluation marker without its number and does nothing again. *)
Lemma check_summary_confirmation_post st :
  str_in (py "SUMMARY & CONFIRMATION") (check_summary_confirmation st).1 = true
  ∨ (str_in (py "WORKFLOW EVALUATION") (check_summary_confirmation st).1 = true
     ∧ str_in (py "13. WORKFLOW EVALUATION") (check_summary_confirmation st).1 = false).
Proof.
  destruct st as [c e]. unfold check_summary_confirmation.
  destruct (str_in (py "SUMMARY & CONFIRMATION") c) eqn:Hsc; cbn [fst negb andb]; [by left|].
  destruct (str_in (py "WORKFLOW EVALUATION") c) eqn:Hwe; cbn [fst negb andb].
  - destruct (str_in (py "13. WORKFLOW EVALUATION") c) eqn:H13.
    + left. eapply replace_occurs in H13 as (u & v & ->); [|done].
      apply str_in_app_r, str_in_app_l, str_in_app_l. by vm_compute.
    + right. by rewrite (replace_absent _ _ _ H13).
  - left. apply str_in_app_r, str_in_app_r. by vm_compute.
Qed.

(** Idempotence as far as it goes: a second application returns the body of
    the first whenever the instrumentation rewrite of the first did not run,
    or ran and left the four section markers in the body. *)
Theorem add_missing_elements_idempotent_when_kept (role_content role_name : str) :
  (str_in (py "INSTRUMENTATION") (sections_checked role_content role_name).1 = true
   ∨ str_in (py "8. ") (sections_checked role_content role_name).1 = false)
  ∨ (str_in (py "## Interactive Session Structure")
            (add_missing_elements role_content role_name).1 = true
     ∧ str_in (py "## Standard Operating Procedures")
              (add_missing_elements role_content role_name).1 = true
     ∧ str_in (py "## Example Usage")
              (add_missing_elements role_content role_name).1 = true
     ∧ str_in (py "SUMMARY & CONFIRMATION")
              (add_missing_elements role_content role_name).1 = true) →
  (add_missing_elements (add_missing_elements role_content role_name).1 role_name).1
  = (add_missing_elements role_content role_name).1.
Proof.
  intros [Hquiet | (Hiss & Hsop & Hex & Hsc)].
  - assert ((add_missing_elements role_content role_name).1
            = (sections_checked role_content role_name).1) as ->.
    { rewrite add_missing_elements_eq.
      destruct (sections_checked role_content role_name) as [c e].
      unfold check_instrumentation. cbn [fst] in *.
      by destruct Hquiet as [-> | ->]; cbn [negb andb]; [|rewrite andb_false_r]. }
    unfold sections_checked in *.
    apply add_missing_elements_fixed; [| | | |exact Hquiet].
    + apply check_summary_confirmation_keeps; [by vm_compute|].
      apply check_example_usage_keeps, check_standard_operating_procedures_keeps.
      apply check_interaction_pattern_has.
    + apply check_summary_confirmation_keeps; [by vm_compute|].
      apply check_example_usage_keeps, check_standard_operating_procedures_has.
    + apply check_summary_confirmation_keeps; [by vm_compute|].
      apply check_example_usage_has.
    + apply check_summary_confirmation_post.
  - apply add_missing_elements_fixed;
      [exact Hiss | exact Hsop | exact Hex | left; exact Hsc |].
    rewrite add_missing_elements_eq. apply check_instrumentation_post.
Qed.

End Idempotence.

(** ** More on [add_missing_elements] *)

Section MoreElements.
Implicit Types (st : str * list str) (role_content role_name t : str).

Lemma check_interaction_pattern_keeps role_name st t :
  str_in t st.1 = true → str_in t (check_interaction_pattern role_name st).1 = true.
Proof.
  destruct st as [c e]. unfold check_interaction_pattern.
  destruct (str_in _ c); cbn [fst negb]; [done|]. apply str_in_app_l.
Qed.

(** X1. A body that already mentions [INSTRUMENTATION] is never rewritten:
    the result is the content after the four section checks, and it holds the
    three section headings. *)
Theorem add_missing_elements_headings_present role_content role_name :
  str_in (py "INSTRUMENTATION") role_content = true →
  (add_missing_elements role_content role_name).1
    = (sections_checked role_content role_name).1
  ∧ str_in (py "## Interactive Session Structure")
           (add_missing_elements role_content role_name).1 = true
  ∧ str_in (py "## Standard Operating Procedures")
           (add_missing_elements role_content role_name).1 = true
  ∧ str_in (py "## Example Usage")
           (add_missing_elements role_content role_name).1 = true.
Proof.
  intros Hin.
  assert (str_in (py "INSTRUMENTATION") (sections_checked role_content role_name).1 = true)
    as Hkept.
  { unfold sections_checked.
    apply check_summary_confirmation_keeps; [by vm_compute|].
    apply check_example_usage_keeps, check_standard_operating_procedures_keeps.
    by apply check_interaction_pattern_keeps. }
  assert ((add_missing_elements role_content role_name).1
          = (sections_checked role_content role_name).1) as Heq.
  { rewrite add_missing_elements_eq.
    destruct (sections_checked role_content role_name) as [c e].
    unfold check_instrumentation. cbn [fst] in *. by rewrite Hkept. }
  split; [exact Heq|]. rewrite Heq. unfold sections_checked.
  split; [|split].
  - apply check_summary_confirmation_keeps; [by vm_compute|].
    apply check_example_usage_keeps, check_standard_operating_procedures_keeps.
    apply check_interaction_pattern_has.
  - apply check_summary_confirmation_keeps; [by vm_compute|].
    apply check_example_usage_keeps, check_standard_operating_procedures_has.
  - apply check_summary_confirmation_keeps; [by vm_compute|].
    apply check_example_usage_has.
Qed.

(** X2. Whatever the body, once [add_missing_elements] is done either the
    bullet [INSTRUMENTATION] is in the result or the result has no [8. ]. *)
Theorem add_missing_elements_instrumented role_content role_name :
  str_in (py "INSTRUMENTATION") (add_missing_elements role_content role_name).1 = true
  ∨ str_in (py "8. ") (add_missing_elements role_content role_name).1 = false.
Proof. rewrite add_missing_elements_eq. apply check_instrumentation_post. Qed.

(** Each block leaves the pair alone or adds its one name at the end. *)
Lemma check_interaction_pattern_names role_name st :
  check_interaction_pattern role_name st = st
  ∨ (check_interaction_pattern role_name st).2 = st.2 ++ [py "interaction_pattern"].
Proof.
  destruct st as [c e]. unfold check_interaction_pattern.
  destruct (negb _); [by right | by left].
Qed.

Lemma check_standard_operating_procedures_names role_name st :
  check_standard_operating_procedures role_name st = st
  ∨ (check_standard_operating_procedures role_name st).2
    = st.2 ++ [py "standard_operating_procedures"].
Proof.
  destruct st as [c e]. unfold check_standard_operating_procedures.
  destruct (negb _); [by right | by left].
Qed.

Lemma check_example_usage_names role_name st :
  check_example_usage role_name st = st
  ∨ (check_example_usage role_name st).2 = st.2 ++ [py "example_usage"].
Proof.
  destruct st as [c e]. unfold check_example_usage.
  destruct (negb _); [by right | by left].
Qed.

Lemma check_summary_confirmation_names st :
  check_summary_confirmation st = st
  ∨ (check_summary_confirmation st).2 = st.2 ++ [py "summary_confirmation"].
Proof.
  destruct st as [c e]. unfold check_summary_confirmation.
  destruct (negb _); [by right | by left].
Qed.

Lemma check_instrumentation_names st :
  check_instrumentation st = st
  ∨ (check_instrumentation st).2 = st.2 ++ [py "instrumentation"].
Proof.
  destruct st as [c e]. unfold check_instrumentation.
  destruct (_ && _); [by right | by left].
Qed.

Lemma sublist_snoc_step (l k : list str) (x : str) (rest : list str) (l' : list str) :
  l `sublist_of` k → l' = l ∨ l' = l ++ [x] → l' `sublist_of` k ++ x :: rest.
Proof.
  intros Hl [-> | ->].
  - by apply sublist_inserts_r.
  - apply sublist_app; [done|]. by apply (sublist_inserts_r rest [x] [x]).
Qed.

(** X3. The list of enhancements holds names of the five blocks only, each at
    most once and in the order of the blocks. *)
Theorem add_missing_elements_names role_content role_name :
  (add_missing_elements role_content role_name).2 `sublist_of` enhancement_names.
Proof.
  unfold add_missing_elements.
  set (s0 := (role_content, @nil str)).
  set (s1 := check_interaction_pattern role_name s0).
  set (s2 := check_standard_operating_procedures role_name s1).
  set (s3 := check_example_usage role_name s2).
  set (s4 := check_summary_confirmation s3).
  assert (s1.2 `sublist_of` [py "interaction_pattern"]) as H1.
  { destruct (check_interaction_pattern_names role_name s0) as [H | H];
      fold s1 in H; rewrite H; [apply sublist_nil_l | done]. }
  assert (s2.2 `sublist_of` [py "interaction_pattern"; py "standard_operating_procedures"]) as H2.
  { apply (sublist_snoc_step s1.2 [_] _ []); [done|].
    destruct (check_standard_operating_procedures_names role_name s1) as [H | H];
      fold s2 in H; [left; by rewrite H | by right]. }
  assert (s3.2 `sublist_of` [py "interaction_pattern"; py "standard_operating_procedures";
                             py "example_usage"]) as H3.
  { apply (sublist_snoc_step s2.2 [_; _] _ []); [done|].
    destruct (check_example_usage_names role_name s2) as [H | H];
      fold s3 in H; [left; by rewrite H | by right]. }
  assert (s4.2 `sublist_of` [py "interaction_pattern"; py "standard_operating_procedures";
                             py "example_usage"; py "summary_confirmation"]) as H4.
  { apply (sublist_snoc_step s3.2 [_; _; _] _ []); [done|].
    destruct (check_summary_confirmation_names s3) as [H | H];
      fold s4 in H; [left; by rewrite H | by right]. }
  apply (sublist_snoc_step s4.2 [_; _; _; _] _ []); [done|].
  destruct (check_instrumentation_names s4) as [H | H]; [left; by rewrite H | by right].
Qed.

(** X4. When nothing is recorded, nothing was changed: an empty list of
    enhancements comes with the body as it was given. *)
Theorem add_missing_elements_nothing_recorded role_content role_name :
  (add_missing_elements role_content role_name).2 = [] →
  (add_missing_elements role_content role_name).1 = role_content.
Proof.
  unfold add_missing_elements.
  set (s0 := (role_content, @nil str)).
  set (s1 := check_interaction_pattern role_name s0).
  set (s2 := check_standard_operating_procedures role_name s1).
  set (s3 := check_example_usage role_name s2).
  set (s4 := check_summary_confirmation s3).
  intros Hnil.
  destruct (check_instrumentation_names s4) as [H5 | H5];
    [|rewrite Hnil in H5; by destruct (s4.2)].
  rewrite H5 in Hnil |- *.
  destruct (check_summary_confirmation_names s3) as [H4 | H4]; fold s4 in H4;
    [|rewrite Hnil in H4; by destruct (s3.2)].
  rewrite H4 in Hnil |- *.
  destruct (check_example_usage_names role_name s2) as [H3 | H3]; fold s3 in H3;
    [|rewrite Hnil in H3; by destruct (s2.2)].
  rewrite H3 in Hnil |- *.
  destruct (check_standard_operating_procedures_names role_name s1) as [H2 | H2]; fold s2 in H2;
    [|rewrite Hnil in H2; by destruct (s1.2)].
  rewrite H2 in Hnil |- *.
  destruct (check_interaction_pattern_names role_name s0) as [H1 | H1]; fold s1 in H1;
    [|rewrite Hnil in H1; by destruct (s0.2)].
  by rewrite H1.
Qed.

End MoreElements.

(** ** More on the migration of the aggregate document *)

Section MoreRoles.
Variable isword : char → bool.
Implicit Types (s cur content : str) (enhance : str → str → str * list str).

(** After the first piece, the pieces of a split are headings with a role
    name, each followed by its body: the loop never fails on them. *)
Lemma migrate_sections_succeeds enhance k cur s :
  ∃ header rest out,
    re_split_from (match_role_heading isword) k cur s = header :: rest
    ∧ migrate_sections isword enhance rest = Ok out.
Proof.
  revert k cur. induction s as [|c s IH]; intros k cur.
  - exists cur, [], ([], []). done.
  - destruct k as [|k]; [|apply IH].
    cbn [re_split_from].
    destruct (match_role_heading isword (c :: s)) as [[|n]|] eqn:Hm; [apply IH | | apply IH].
    destruct (IH n []) as (body & rest & [tail report] & Hsplit & Hrest).
    destruct (search_role_name_heading isword _ _ Hm) as [role_name Hname].
    destruct (enhance body role_name) as [enhanced enhancements] eqn:Hen.
    eexists cur, (take (S n) (c :: s) :: body :: rest), _.
    rewrite Hsplit. split; [done|].
    cbn [migrate_sections]. rewrite Hname, Hen, Hrest. done.
Qed.

(** X5. The text transformation of [migrate_ai_roles_file] returns for every
    document and every per-role step: [role_sections[0]] is always there, and
    [re.search] finds a role name in every heading that [re.split] cut out. *)
Theorem migrate_content_never_raises enhance content :
  ∃ text report, migrate_content isword enhance content = Ok (text, report).
Proof.
  unfold migrate_content, re_split.
  destruct (migrate_sections_succeeds enhance 0 [] content)
    as (header & rest & [tail report] & -> & ->).
  by eexists _, _.
Qed.

Lemma match_role_heading_absent s :
  startswith s (py "### @") = false → match_role_heading isword s = None.
Proof. unfold match_role_heading. by intros ->. Qed.

Lemma re_split_from_no_heading cur s :
  str_in (py "### @") s = false →
  re_split_from (match_role_heading isword) 0 cur s = [cur ++ s].
Proof.
  revert cur. induction s as [|c s IH]; intros cur Hin.
  - simpl. by rewrite app_nil_r.
  - cbn [str_in] in Hin. apply orb_false_iff in Hin as [Hsw Hin].
    cbn [re_split_from]. rewrite match_role_heading_absent by done.
    rewrite IH by done. by rewrite <- app_assoc.
Qed.

(** X6. A document in which [### @] does not occur has no role to migrate: it
    comes back as it is, nothing is reported, and the per-role step is not
    consulted. *)
Theorem migrate_content_no_heading enhance content :
  str_in (py "### @") content = false →
  migrate_content isword enhance content = Ok (content, []).
Proof.
  intros Hin. unfold migrate_content, re_split.
  rewrite re_split_from_no_heading by done.
  cbn [migrate_sections mbind result_bind app]. by rewrite app_nil_r.
Qed.

(** X7. [migrate_ai_roles_file] on the disk: without the file it raises
    [FileNotFoundError]; with it, it returns, only the path of the file is
    written, with the migration of the text read (the stored text with its
    line ends translated), and the report grows at its end. *)
Theorem migrate_ai_roles_file_disk (d : gmap (list N) node) (migration_report : list str) :
  (d !! (base_path ++ py "/AI-Roles.md") = None →
     migrate_ai_roles_file isword d migration_report = Raise FileNotFoundError)
  ∧ (∀ stored, d !! (base_path ++ py "/AI-Roles.md") = Some (File stored) →
     ∃ text report,
       migrate_content isword add_missing_elements (universal_newlines stored)
       = Ok (text, report)
       ∧ migrate_ai_roles_file isword d migration_report
         = Ok (<[base_path ++ py "/AI-Roles.md" := File text]> d,
               migration_report ++ report)).
Proof.
  split.
  - intros Hd. unfold migrate_ai_roles_file, read_text. by rewrite Hd.
  - intros stored Hd.
    assert (∃ text report,
              migrate_content isword add_missing_elements (universal_newlines stored)
              = Ok (text, report))
      as (text & report & Hm).
    { unfold migrate_content, re_split.
      destruct (migrate_sections_succeeds add_missing_elements 0 []
                  (universal_newlines stored))
        as (header & rest & [tail report] & -> & ->).
      by eexists _, _. }
    exists text, report. split; [done|].
    unfold migrate_ai_roles_file. rewrite (read_text_file _ _ _ Hd).
    cbn [mbind result_bind].
    rewrite Hm. cbn [mbind result_bind].
    rewrite (write_text_over _ _ _ _ Hd). by cbn [mbind result_bind].
Qed.

End MoreRoles.

(** ** More on [update_claude_md] *)

Section MoreClaude.
Implicit Types (s r t u v mid today content : str).

Lemma startswith_app_newline t u v :
  forallb dot t = true → startswith (u ++ newline :: v) t = true →
  startswith u t = true.
Proof.
  revert u. induction t as [|y t IH]; intros u Ht Hsw; [by destruct u|].
  cbn [forallb] in Ht. apply andb_true_iff in Ht as [Hy Ht].
  destruct u as [|x u]; cbn [app startswith] in *.
  - apply andb_true_iff in Hsw as [Hyn _]. unfold dot in Hy. by rewrite Hyn in Hy.
  - apply andb_true_iff in Hsw as [-> Hsw]. by apply IH.
Qed.

(** A text without line feed that occurs in two texts joined by a line feed
    occurs in one of them. *)
Lemma str_in_app_newline t u v :
  t ≠ [] → forallb dot t = true → str_in t (u ++ newline :: v) = true →
  str_in t u = true ∨ str_in t v = true.
Proof.
  intros Hne Ht. induction u as [|x u IH]; cbn [app str_in]; intros Hin.
  - apply orb_true_iff in Hin as [Hsw | Hin]; [|by right].
    apply (startswith_app_newline t [] v Ht) in Hsw. by destruct t.
  - apply orb_true_iff in Hin as [Hsw | Hin].
    + left. apply orb_true_iff. left.
      by apply (startswith_app_newline t (x :: u) v Ht).
    + destruct (IH Hin) as [H | H]; [left | by right].
      apply orb_true_iff. by right.
Qed.

Lemma inserted_startswith_back mid a s r t :
  inserted (newline :: mid) a s r → forallb dot t = true →
  startswith r t = true → startswith s t = true.
Proof.
  intros Hins. revert t. induction Hins as [|x s r _ IH|s r _ IH]; intros t Ht Hsw.
  - done.
  - destruct t as [|y t]; [done|]. cbn [startswith forallb] in *.
    apply andb_true_iff in Ht as [_ Ht]. apply andb_true_iff in Hsw as [-> Hsw].
    by rewrite (IH t Ht Hsw).
  - destruct t as [|y t]; [done|]. cbn [app startswith forallb] in *.
    apply andb_true_iff in Ht as [Hy _]. apply andb_true_iff in Hsw as [Hyn _].
    unfold dot in Hy. by rewrite Hyn in Hy.
Qed.

(** Inserting a block of whole lines creates no occurrence of a text without
    line feed, unless the block has one. *)
Lemma inserted_not_in mid a s r t :
  inserted (newline :: mid ++ [newline]) a s r →
  t ≠ [] → forallb dot t = true → str_in t mid = false →
  str_in t s = false → str_in t r = false.
Proof.
  intros Hins Hne Ht Hmid.
  induction Hins as [|x s r Hins IH|s r Hins IH]; intros Hs.
  - done.
  - cbn [str_in] in *. apply orb_false_iff in Hs as [Hsw Hs].
    rewrite (IH Hs), orb_false_r.
    destruct (startswith (x :: r) t) eqn:E; [|done].
    apply (inserted_startswith_back (mid ++ [newline]) a (x :: s)) in E;
      [congruence | by constructor | done].
  - cbn [str_in] in Hs. apply orb_false_iff in Hs as [Hsw Hs].
    destruct (str_in t ((newline :: mid ++ [newline]) ++ a :: r)) eqn:E; [|done].
    exfalso.
    replace ((newline :: mid ++ [newline]) ++ a :: r)
      with ((newline :: mid) ++ newline :: (a :: r)) in E
      by (cbn [app]; by rewrite <- app_assoc).
    apply str_in_app_newline in E as [E | E]; [| |done|done].
    + cbn [str_in] in E. rewrite Hmid, orb_false_r in E.
      destruct t as [|y t]; [done|]. cbn [startswith forallb] in *.
      apply andb_true_iff in Ht as [Hy _]. apply andb_true_iff in E as [Hyn _].
      unfold dot in Hy. by rewrite Hyn in Hy.
    + cbn [str_in] in E. rewrite (IH Hs), orb_false_r in E.
      apply (inserted_startswith_back (mid ++ [newline]) a (a :: s)) in E;
        [congruence | by constructor | done].
Qed.

(** A text occurs only where its first character does. *)
Lemma str_in_first a t s :
  str_in (a :: t) s = true → forallb (λ c, negb (c =? a)%N) s = true → False.
Proof.
  induction s as [|x s IH]; [done|]. cbn [str_in startswith forallb].
  intros Hin [Hx Hs]%andb_true_iff. apply orb_true_iff in Hin as [Hsw | Hin]; [|auto].
  apply andb_true_iff in Hsw as [Hax _]. apply N.eqb_eq in Hax as ->.
  by rewrite N.eqb_refl in Hx.
Qed.

Lemma whole_lines_form (body rest : str) :
  (newline :: body) ++ [newline; newline] ++ rest
  = (newline :: (body ++ [newline]) ++ [newline]) ++ rest.
Proof. cbn [app]. by rewrite <- !app_assoc. Qed.

Lemma table_row_anchor_eq :
  py "| VERSION | Current version" = 124%N :: py " VERSION | Current version".
Proof. by vm_compute. Qed.

Lemma reminders_anchor_eq :
  py "# important-instruction-reminders" = 35%N :: py " important-instruction-reminders".
Proof. by vm_compute. Qed.

Lemma version_section_eq today :
  version_section today
  = newline :: py "## Version History
- v1.3 (" ++ today ++ py "): Migrated all roles to standardized template with hierarchical interaction patterns".
Proof.
  unfold version_section.
  assert (py "
## Version History
- v1.3 (" = newline :: py "## Version History
- v1.3 (") as -> by by vm_compute.
  symmetry. apply app_comm_cons.
Qed.

(** The two steps of [update_claude_content]. *)
Lemma update_claude_content_steps today content :
  update_claude_content today content =
  (let c1 := if negb (str_in (py "role-template.md") content)
             then replace content (py "| VERSION | Current version")
                    (migration_note today ++ [newline] ++ py "| VERSION | Current version")
             else content in
   if negb (str_in (py "## Version History") c1)
   then replace c1 (py "# important-instruction-reminders")
          (version_section today ++ [newline; newline] ++ py "# important-instruction-reminders")
   else c1).
Proof. done. Qed.

(** A content in which each step finds its guard, or no anchor, is left as
    it is. *)
Lemma update_claude_content_fixed today r :
  (str_in (py "role-template.md") r = true
   ∨ str_in (py "| VERSION | Current version") r = false) →
  (str_in (py "## Version History") r = true
   ∨ str_in (py "# important-instruction-reminders") r = false) →
  update_claude_content today r = r.
Proof.
  intros H1 H2. rewrite update_claude_content_steps. cbv zeta.
  assert ((if negb (str_in (py "role-template.md") r)
           then replace r (py "| VERSION | Current version")
                  (migration_note today ++ [newline] ++ py "| VERSION | Current version")
           else r) = r) as ->.
  { destruct H1 as [-> | H1]; [done|]. rewrite (replace_absent _ _ _ H1). by case_match. }
  destruct H2 as [-> | H2]; [done|]. rewrite (replace_absent _ _ _ H2). by case_match.
Qed.

(** The first step: the row is added where the anchor row is, texts without
    a vertical bar stay. *)
Lemma claude_row_added today content :
  str_in (py "| VERSION | Current version") content = true →
  str_in (py "role-template.md")
    (if negb (str_in (py "role-template.md") content)
     then replace content (py "| VERSION | Current version")
            (migration_note today ++ [newline] ++ py "| VERSION | Current version")
     else content) = true.
Proof.
  intros Ha. destruct (str_in (py "role-template.md") content) eqn:E; cbn [negb]; [done|].
  eapply replace_occurs in Ha as (u & v & ->); [|done].
  apply str_in_app_r, str_in_app_l, str_in_app_l.
  unfold migration_note. apply str_in_app_r, str_in_app_l. by vm_compute.
Qed.

Lemma claude_row_keeps today content t :
  forallb (λ c, negb (c =? 124)%N) t = true →
  str_in t content = true →
  str_in t
    (if negb (str_in (py "role-template.md") content)
     then replace content (py "| VERSION | Current version")
            (migration_note today ++ [newline] ++ py "| VERSION | Current version")
     else content) = true.
Proof.
  intros Ht Hin. destruct (negb _); [|done].
  rewrite table_row_anchor_eq, (app_assoc (migration_note today) [newline]).
  eapply inserted_str_in; [apply replace_inserted | exact Ht | exact Hin].
Qed.

(** The second step, on the content [c] it gets. *)
Lemma claude_section_added today c :
  str_in (py "# important-instruction-reminders") c = true →
  str_in (py "## Version History")
    (if negb (str_in (py "## Version History") c)
     then replace c (py "# important-instruction-reminders")
            (version_section today ++ [newline; newline] ++ py "# important-instruction-reminders")
     else c) = true.
Proof.
  intros Ha. destruct (str_in (py "## Version History") c) eqn:E; cbn [negb]; [done|].
  eapply replace_occurs in Ha as (u & v & ->); [|done].
  apply str_in_app_r, str_in_app_l, str_in_app_l.
  unfold version_section. apply str_in_app_l. by vm_compute.
Qed.

Lemma claude_section_keeps today c t :
  forallb (λ c, negb (c =? 35)%N) t = true →
  str_in t c = true →
  str_in t
    (if negb (str_in (py "## Version History") c)
     then replace c (py "# important-instruction-reminders")
            (version_section today ++ [newline; newline] ++ py "# important-instruction-reminders")
     else c) = true.
Proof.
  intros Ht Hin. destruct (negb _); [|done].
  rewrite reminders_anchor_eq, (app_assoc (version_section today) [newline; newline]).
  eapply inserted_str_in; [apply replace_inserted | exact Ht | exact Hin].
Qed.

Lemma claude_section_no_row today c :
  forallb (λ c, negb (c =? 124)%N) today = true →
  str_in (py "| VERSION | Current version") c = false →
  str_in (py "| VERSION | Current version")
    (if negb (str_in (py "## Version History") c)
     then replace c (py "# important-instruction-reminders")
            (version_section today ++ [newline; newline] ++ py "# important-instruction-reminders")
     else c) = false.
Proof.
  intros Htoday Hc. destruct (negb _); [|done].
  rewrite reminders_anchor_eq, version_section_eq, whole_lines_form.
  eapply inserted_not_in; [apply replace_inserted | by vm_compute | by vm_compute | | exact Hc].
  match goal with |- str_in _ ?mid = false =>
    destruct (str_in (py "| VERSION | Current version") mid) eqn:E; [exfalso|done] end.
  rewrite table_row_anchor_eq in E. apply str_in_first in E; [done|].
  rewrite !forallb_app, Htoday. by vm_compute.
Qed.

(** X8. Where an anchor is, [update_claude_content] leaves its mark: with the
    table row [| VERSION | Current version] in the document the result
    mentions [role-template.md], and with the heading
    [# important-instruction-reminders] the result has [## Version History]. *)
Theorem update_claude_content_marks today content :
  (str_in (py "| VERSION | Current version") content = true →
     str_in (py "role-template.md") (update_claude_content today content) = true)
  ∧ (str_in (py "# important-instruction-reminders") content = true →
     str_in (py "## Version History") (update_claude_content today content) = true).
Proof.
  rewrite update_claude_content_steps. cbv zeta. split; intros Ha.
  - apply claude_section_keeps; [by vm_compute|]. by apply claude_row_added.
  - apply claude_section_added. apply claude_row_keeps; [by vm_compute | done].
Qed.

(** X9. Run again on its own result, [update_claude_content] adds no second
    row and no second block: the second run returns the text of the first.
    The date text is taken to have no vertical bar. *)
Theorem update_claude_content_idempotent today content :
  forallb (λ c, negb (c =? 124)%N) today = true →
  update_claude_content today (update_claude_content today content)
  = update_claude_content today content.
Proof.
  intros Htoday. apply update_claude_content_fixed.
  - destruct (str_in (py "| VERSION | Current version") content) eqn:Hrow.
    + left. rewrite update_claude_content_steps. cbv zeta.
      apply claude_section_keeps; [by vm_compute|]. by apply claude_row_added.
    + right. rewrite update_claude_content_steps. cbv zeta.
      rewrite (replace_absent _ _ _ Hrow).
      assert ((if negb (str_in (py "role-template.md") content)
               then content else content) = content) as -> by by case_match.
      by apply claude_section_no_row.
  - rewrite update_claude_content_steps. cbv zeta.
    set (c1 := if negb (str_in (py "role-template.md") content) then _ else _).
    clearbody c1.
    destruct (str_in (py "# important-instruction-reminders") c1) eqn:Hhead.
    + left. by apply claude_section_added.
    + right. rewrite (replace_absent _ _ _ Hhead).
      destruct (negb _); exact Hhead.
Qed.

Lemma update_claude_content_idempotent_witness :
  update_claude_content (py "2025-01-31")
    (update_claude_content (py "2025-01-31") (py "| File | Purpose | Version | Date |
| VERSION | Current version | 1.2 | 2025-01-01 |

# important-instruction-reminders
Do what has been asked."))
  = update_claude_content (py "2025-01-31") (py "| File | Purpose | Version | Date |
| VERSION | Current version | 1.2 | 2025-01-01 |

# important-instruction-reminders
Do what has been asked.").
Proof. apply update_claude_content_idempotent. by vm_compute. Defined.

End MoreClaude.

(** ** The command files *)

Section CommandFiles.
Implicit Types (d : gmap (list N) node) (content : str) (ri : Migrator.role_info)
  (items : list (str * Migrator.role_info)).

Lemma interaction_section_has_question ri :
  str_in (py "## Question") (interaction_section ri) = true.
Proof. unfold interaction_section. apply str_in_app_l. by vm_compute. Qed.

Lemma migrate_command_content_marked ri content :
  str_in (py "## Interactive Q&A Framework") (migrate_command_content ri content) = true
  ∨ str_in (py "## Question") (migrate_command_content ri content) = true.
Proof.
  unfold migrate_command_content.
  destruct (str_in (py "## Interactive Q&A Framework") content) eqn:Hqa; cbn [negb andb];
    [by left|].
  destruct (str_in (py "## Question") content) eqn:Hq; cbn [negb]; [by right|].
  right. destruct (str_in (py "## Key Responsibilities") content) eqn:Hkr.
  - eapply replace_occurs in Hkr as (u & v & ->); [|done].
    apply str_in_app_r, str_in_app_l, str_in_app_l, interaction_section_has_question.
  - apply str_in_app_r, str_in_app_r, interaction_section_has_question.
Qed.


Lemma migrate_command_content_fixed ri content :
  str_in (py "## Interactive Q&A Framework") content = true
  ∨ str_in (py "## Question") content = true →
  migrate_command_content ri content = content.
Proof.
  unfold migrate_command_content. intros [-> | ->]; cbn [negb andb]; [done|].
  by rewrite andb_false_r.
Qed.

(** X10. After [migrate_command_content] a command file always has a
    question section: the marker [## Interactive Q&A Framework] or the marker
    [## Question] occurs in the result, whatever the file held.  So a second
    migration of the file changes nothing: the interaction section is
    inserted at most once. *)
Theorem migrate_command_content_idempotent ri content :
  (str_in (py "## Interactive Q&A Framework") (migrate_command_content ri content) = true
   ∨ str_in (py "## Question") (migrate_command_content ri content) = true)
  ∧ migrate_command_content ri (migrate_command_content ri content)
    = migrate_command_content ri content.
Proof.
  split; [apply migrate_command_content_marked|].
  apply migrate_command_content_fixed, migrate_command_content_marked.
Qed.

Lemma command_path_inj (k1 k2 : str) : command_path k1 = command_path k2 → k1 = k2.
Proof.
  unfold command_path. intros H.
  apply app_inv_head in H. apply app_inv_head in H. by apply app_inv_tail in H.
Qed.

Lemma roles_items_keys_NoDup : NoDup roles_items.*1.
Proof. apply (bool_decide_unpack _). by vm_compute. Qed.

(** The loop over any list of roles with distinct keys. *)
Lemma migrate_command_loop_spec items d (migration_report : list str) :
  NoDup items.*1 →
  (∀ key ri, (key, ri) ∈ items → d !! command_path key ≠ Some Dir) →
  ∃ d' report',
    migrate_command_loop items d migration_report = Ok (d', report')
    ∧ dom d' = dom d
    ∧ (∀ p, (∀ key ri, (key, ri) ∈ items → p ≠ command_path key) → d' !! p = d !! p)
    ∧ (∀ key ri stored, (key, ri) ∈ items →
         d !! command_path key = Some (File stored) →
         d' !! command_path key
         = Some (File (migrate_command_content ri (universal_newlines stored))))
    ∧ report' = migration_report
        ++ ((λ kv, py "Updated command file: " ++ kv.1 ++ py ".md")
              <$> filter (λ kv, is_Some (d !! command_path kv.1)) items).
Proof.
  revert d migration_report.
  induction items as [|[k ri] rest IH]; intros d report Hnodup Hdir.
  - exists d, report. split; [done|]. split; [done|]. split; [done|].
    split; [by intros ? ? ? ?%elem_of_nil|].
    rewrite filter_nil, fmap_nil. by rewrite app_nil_r.
  - apply NoDup_cons in Hnodup as [Hk Hnodup]. cbn [fmap list_fmap fst] in Hk.
    cbn [migrate_command_loop]. rewrite filter_cons. cbn [fst].
    destruct (d !! command_path k) as [[content|]|] eqn:Hd.
    + assert (exists_ d (command_path k) = true) as -> by (apply exists_true; eauto).
      rewrite (read_text_file _ _ _ Hd). cbn [mbind result_bind].
      rewrite (write_text_over _ _ _ _ Hd). cbn [mbind result_bind].
      set (d1 := <[command_path k
                   := File (migrate_command_content ri (universal_newlines content))]> d).
      assert (∀ key, key ≠ k → d1 !! command_path key = d !! command_path key) as Hother.
      { intros key Hne. unfold d1. rewrite lookup_insert_ne; [done|].
        intros ?%command_path_inj. congruence. }
      assert (∀ key ri', (key, ri') ∈ rest → key ≠ k) as Hrest.
      { intros key ri' Hin ->. apply Hk. apply list_elem_of_fmap. by exists (k, ri'). }
      destruct (IH d1 (report ++ [py "Updated command file: " ++ k ++ py ".md"]) Hnodup)
        as (d' & report' & Hloop & Hdom & Hframe & Hcontent & Hreport).
      { intros key ri' Hin. rewrite (Hother key) by eauto.
        apply (Hdir key ri'). by right. }
      exists d', report'. split; [done|]. split; [|split; [|split]].
      * rewrite Hdom. unfold d1. apply dom_insert_lookup_L. eauto.
      * intros p Hp. rewrite Hframe.
        -- unfold d1. rewrite lookup_insert_ne; [done|].
           intros Heq. by apply (Hp k ri); [left|].
        -- intros key ri' Hin. apply (Hp key ri'). by right.
      * intros key ri' content' Hin Hfile.
        apply elem_of_cons in Hin as [[= -> ->] | Hin].
        -- rewrite Hd in Hfile. injection Hfile as <-.
           rewrite Hframe; [unfold d1; by rewrite lookup_insert_eq|].
           intros key ri' Hin ?%command_path_inj. by apply (Hrest key ri').
        -- apply (Hcontent key ri' content' Hin).
           rewrite (Hother key) by eauto. done.
      * rewrite Hreport. rewrite decide_True by eauto.
        rewrite fmap_cons. cbn [fst]. rewrite <- app_assoc. cbn [app].
        do 3 f_equal. apply list_filter_iff. intros [key ri'].
        cbn [fst]. rewrite <- !elem_of_dom. unfold d1.
        rewrite dom_insert_lookup_L; [done | eauto].
    + exfalso. by apply (Hdir k ri); [left|].
    + assert (exists_ d (command_path k) = false) as -> by by apply exists_false.
      destruct (IH d report Hnodup) as (d' & report' & Hloop & Hdom & Hframe & Hcontent & Hreport).
      { intros key ri' Hin. apply (Hdir key ri'). by right. }
      exists d', report'. split; [done|]. split; [done|]. split; [|split].
      * intros p Hp. apply Hframe. intros key ri' Hin. apply (Hp key ri'). by right.
      * intros key ri' content' Hin Hfile.
        apply elem_of_cons in Hin as [[= -> ->] | Hin]; [congruence|].
        by apply (Hcontent key ri').
      * rewrite Hreport. rewrite decide_False; [done|].
        by intros [? ?].
Qed.

(** X11. [migrate_command_files] on the disk, when none of the ten command
    paths is a directory: it returns; no path appears or disappears; every
    path that is not a command path keeps what it had; each command file that
    exists holds the migration of the text read from it (the stored text with
    its line ends translated); and the report gets one line for each
    existing command file, in the order of the roles, whether or not the text
    of the file changed. *)
Theorem migrate_command_files_disk d (migration_report : list str) :
  (∀ key ri, (key, ri) ∈ roles_items → d !! command_path key ≠ Some Dir) →
  ∃ d' report',
    migrate_command_files d migration_report = Ok (d', report')
    ∧ dom d' = dom d
    ∧ (∀ p, (∀ key ri, (key, ri) ∈ roles_items → p ≠ command_path key) → d' !! p = d !! p)
    ∧ (∀ key ri stored, (key, ri) ∈ roles_items →
         d !! command_path key = Some (File stored) →
         d' !! command_path key
         = Some (File (migrate_command_content ri (universal_newlines stored))))
    ∧ report' = migration_report
        ++ ((λ kv, py "Updated command file: " ++ kv.1 ++ py ".md")
              <$> filter (λ kv, is_Some (d !! command_path kv.1)) roles_items).
Proof. apply migrate_command_loop_spec, roles_items_keys_NoDup. Qed.

(** The table of [migrate_command_files] is the table of the other methods. *)
Lemma roles_items_roles : list_to_map roles_items = Migrator.roles.
Proof. unfold Migrator.roles, roles_items. reflexivity. Qed.

(** *** The report *)

Lemma str_in_join (sep line : str) (l : list str) :
  line ∈ l → str_in line (join sep l) = true.
Proof.
  induction l as [|x l IH]; [by intros ?%elem_of_nil|].
  intros Hin. destruct l as [|y l].
  - apply list_elem_of_singleton in Hin as ->. cbn.
    apply str_in_spec. exists [], []. by rewrite app_nil_r.
  - rewrite join_cons by done. apply elem_of_cons in Hin as [-> | Hin].
    + apply str_in_app_l. apply str_in_spec. exists [], []. by rewrite app_nil_r.
    + apply str_in_app_r, str_in_app_r. by apply IH.
Qed.

(** X12. [generate_report], when the base directory is there and the path of
    the report is not a directory: it returns that path, writes the report
    there and nowhere else, and the text of the report holds every recorded
    line and the backup directory. *)
Theorem generate_report_spec (now_stamp now_text backup_dir : str) d (migration_report : list str) :
  d !! base_path = Some Dir →
  d !! report_path now_stamp ≠ Some Dir →
  generate_report now_stamp now_text backup_dir d migration_report
  = Ok (<[report_path now_stamp := File (report_content now_text backup_dir migration_report)]> d,
        report_path now_stamp)
  ∧ (∀ line, line ∈ migration_report →
       str_in line (report_content now_text backup_dir migration_report) = true)
  ∧ str_in backup_dir (report_content now_text backup_dir migration_report) = true.
Proof.
  intros _ Hdir. split; [|split].
  - unfold generate_report, write_text, open_w.
    destruct (d !! report_path now_stamp) as [[t|]|] eqn:Hd; try done;
      cbn [mbind result_bind]; by rewrite insert_insert_eq.
  - intros line Hin. unfold report_content.
    do 5 apply str_in_app_r. apply str_in_app_l. by apply str_in_join.
  - unfold report_content. do 3 apply str_in_app_r. apply str_in_app_l.
    apply str_in_spec. exists [], []. by rewrite app_nil_r.
Qed.

End CommandFiles.

(** ** More on the file service *)

Section MoreService.
Implicit Types (d : gmap (list N) node) (md_files : list str) (req : request)
  (P content file_path : str).

(** *** Types and buckets *)

(** X13. The type tag and the bucket of a file agree: an entry of type
    [command] is in Role Commands and an entry of type [project] in Project
    Files; an entry of Core Documentation has type [roles] or [doc], and an
    entry of Role Commands has type [roles] or [command]. *)
Theorem file_type_bucket file_path :
  (get_file_type file_path = py "command" → category_of file_path = py "Role Commands")
  ∧ (get_file_type file_path = py "project" → category_of file_path = py "Project Files")
  ∧ (category_of file_path = py "Core Documentation" →
       get_file_type file_path = py "roles" ∨ get_file_type file_path = py "doc")
  ∧ (category_of file_path = py "Role Commands" →
       get_file_type file_path = py "roles" ∨ get_file_type file_path = py "command").
Proof.
  unfold get_file_type, category_of.
  destruct (str_in (py "AI-Roles.md") file_path) eqn:Hroles;
  destruct (startswith file_path (py ".claude/commands/")) eqn:Hcmd.
  - cbv beta iota. split; [py_neq|]. split; [py_neq|]. split; [py_neq|]. by left.
  - cbv beta iota. split; [py_neq|]. split; [py_neq|]. split; [by left|].
    case_bool_decide; py_neq.
  - cbv beta iota. split; [done|]. split; [py_neq|]. split; [py_neq|]. by right.
  - cbv beta iota. split; [repeat case_bool_decide; py_neq|]. split; [|split].
    + case_bool_decide as Hproj; [|case_bool_decide; py_neq].
      intros _. rewrite bool_decide_eq_false_2; [done|].
      intros Hcore.
      repeat (apply elem_of_cons in Hproj as [-> | Hproj];
              [apply list_elem_of_In in Hcore; vm_compute in Hcore;
               intuition discriminate|]).
      by apply elem_of_nil in Hproj.
    + case_bool_decide as Hcore; [|py_neq]. intros _.
      rewrite bool_decide_eq_false_2; [by right|].
      intros Hproj.
      repeat (apply elem_of_cons in Hcore as [-> | Hcore];
              [apply list_elem_of_In in Hproj; vm_compute in Hproj;
               intuition discriminate|]).
      by apply elem_of_nil in Hcore.
    + case_bool_decide; py_neq.
Qed.

(** *** The listing as a whole *)

Lemma concat_to_expected_format (categories : list (str * list file_info)) :
  concat (to_expected_format categories).*2 ≡ₚ concat categories.*2.
Proof.
  induction categories as [|[k raw] rest IH]; [done|].
  cbn [to_expected_format]. destruct raw as [|x raw]; [done|].
  cbn [fmap list_fmap snd concat]. by rewrite sorted_by_name_perm, IH.
Qed.

Lemma listed_all d md_files :
  listed d md_files (py "Core Documentation")
    ++ listed d md_files (py "Project Files")
    ++ listed d md_files (py "Role Commands")
  ≡ₚ make_file_info d <$> filter (λ p, str_in (py "node_modules") p = false) md_files.
Proof.
  unfold listed. induction md_files as [|p md IH]; [done|].
  rewrite !filter_cons.
  destruct (str_in (py "node_modules") p) eqn:Hnm.
  { rewrite !decide_False by (by intros [? _]). rewrite decide_False by done. done. }
  rewrite (decide_True (P := false = false)) by done.
  destruct (category_of_cases p) as [Hc | [Hc | Hc]]; rewrite Hc.
  - rewrite decide_True by done.
    rewrite !decide_False by (intros [_ Hne]; revert Hne; py_neq).
    rewrite !fmap_cons. cbn [app]. by rewrite IH.
  - rewrite decide_False by (intros [_ Hne]; revert Hne; py_neq).
    rewrite decide_True by done.
    rewrite decide_False by (intros [_ Hne]; revert Hne; py_neq).
    rewrite !fmap_cons. cbn [app]. rewrite <- Permutation_middle. by rewrite IH.
  - rewrite !decide_False by (intros [_ Hne]; revert Hne; py_neq).
    rewrite decide_True by done.
    rewrite !fmap_cons. rewrite app_assoc, <- Permutation_middle, <- app_assoc.
    by rewrite IH.
Qed.

(** X14. The buckets together hold one entry for each listed file whose path
    does not contain [node_modules], and nothing else: no file is lost, none
    is listed twice, none of [node_modules] gets in. *)
Theorem get_all_md_files_complete d md_files :
  concat (get_all_md_files d md_files).*2
  ≡ₚ make_file_info d <$> filter (λ p, str_in (py "node_modules") p = false) md_files.
Proof.
  rewrite get_all_md_files_buckets, concat_to_expected_format.
  cbn [fmap list_fmap snd concat]. rewrite app_nil_r. apply listed_all.
Qed.

Lemma str_le_refl (a : str) : str_le a a = true.
Proof.
  induction a as [|x a IH]; [done|]. cbn [str_le].
  by rewrite N.eqb_refl, IH, orb_true_r.
Qed.

Lemma insert_by_name_filter (n : str) (x : file_info) (l : list file_info) :
  filter (λ y, name y = n) (insert_by_name x l)
  = filter (λ y, name y = n) (x :: l).
Proof.
  induction l as [|y l IH]; [done|]. cbn [insert_by_name].
  destruct (str_le (name x) (name y)) eqn:Hle; [done|].
  rewrite filter_cons, IH, !filter_cons.
  destruct (decide (name y = n)) as [Hy | Hy]; [|done].
  destruct (decide (name x = n)) as [Hx | Hx]; [|done].
  rewrite Hx, Hy in Hle. by rewrite str_le_refl in Hle.
Qed.

(** X15. The sort of a bucket is stable: entries with the same name stay in
    the order in which they were listed. *)
Theorem sorted_by_name_stable (n : str) (l : list file_info) :
  filter (λ y, name y = n) (sorted_by_name l) = filter (λ y, name y = n) l.
Proof.
  induction l as [|x l IH]; [done|]. cbn [sorted_by_name].
  rewrite insert_by_name_filter, !filter_cons. by rewrite IH.
Qed.

(** *** Previews *)

Lemma startswith_hash_take (line : str) (k : nat) (tail : str) :
  startswith line (py "#") = false → line ≠ [] → 0 < k →
  startswith (take k line ++ tail) (py "#") = false.
Proof.
  intros Hsw Hne Hk. destruct line as [|c line]; [done|].
  destruct k as [|k]; [lia|]. exact Hsw.
Qed.

Lemma preview_of_lines_bounds (lines : list str) :
  21 ≤ length (preview_of_lines lines) ≤ 83
  ∧ startswith (preview_of_lines lines) (py "#") = false.
Proof.
  induction lines as [|line lines IH].
  - cbn [preview_of_lines]. split; [|by vm_compute].
    assert (length (py "Markdown documentation file") = 27) as -> by by vm_compute.
    lia.
  - cbn [preview_of_lines].
    destruct (good_preview_line (strip line)) eqn:Hgood; [|done].
    unfold good_preview_line in Hgood.
    apply andb_true_iff in Hgood as [[Hne Hhash]%andb_true_iff Hlen].
    apply negb_true_iff, bool_decide_eq_false in Hne.
    apply negb_true_iff in Hhash. apply bool_decide_eq_true in Hlen.
    case_bool_decide as Hlong.
    + split.
      * rewrite length_app, length_take.
        replace (length (py "...")) with 3 by by vm_compute. lia.
      * apply startswith_hash_take; [done | done | lia].
    + split; [lia | done].
Qed.

(** X16. Whatever the disk holds at a path, the preview has between 21 and 83
    characters and does not start with [#]. *)
Theorem get_file_preview_bounds d file_path :
  21 ≤ length (get_file_preview d file_path) ≤ 83
  ∧ startswith (get_file_preview d file_path) (py "#") = false.
Proof.
  unfold get_file_preview. destruct (read_text d file_path).
  - apply preview_of_lines_bounds.
  - split; [|by vm_compute].
    assert (length (py "File preview not available") = 26) as -> by by vm_compute.
    lia.
Qed.

End MoreService.

(** *** The handlers *)

Section Handlers.
Implicit Types (d : gmap (list N) node) (md_files : list str) (req : request)
  (P content : str) (m : gmap (list N) json).

(** X17. [do_GET] only reads: whatever the request, the disk is left as it
    was. *)
Theorem do_GET_read_only d md_files req : disk (do_GET d md_files req) = d.
Proof.
  unfold do_GET, serve_file.
  repeat first [case_bool_decide | case_match]; done.
Qed.

Lemma do_GET_file_run d md_files req P (rest : list str) content :
  parsed_path req = py "/api/file" →
  query_params req !! py "path" = Some (P :: rest) →
  P ≠ [] →
  d !! (py "." ++ P) = Some (File content) →
  do_GET d md_files req
  = {| disk := d;
       events := file_ok_headers ++ [wfile_write (text (universal_newlines content))];
       finished := Ok () |}.
Proof.
  intros Hpath Hquery Hne Hfile. unfold do_GET.
  rewrite Hpath, Hquery.
  rewrite !bool_decide_eq_false_2 by py_neq.
  rewrite bool_decide_eq_true_2 by done. cbn [orb from_option id].
  rewrite (bool_decide_eq_false_2 (P = [])) by done.
  assert (exists_ d (py "." ++ P) = true) as -> by (apply exists_true; eauto).
  cbn [negb andb]. unfold read_text. by rewrite Hfile.
Qed.

(** X18. The outcomes of [GET /api/file].  With a non-empty path that names
    a file the answer is 200 with the text read from the file as body: the
    stored text with its line ends translated to line feeds.  Without a
    [path] parameter, or with an empty one, the answer is 404.  With a path
    that names a directory the status line 200 and the headers are sent and
    then [IsADirectoryError] is raised, with no body. *)
Theorem do_GET_file_outcomes d md_files req :
  parsed_path req = py "/api/file" →
  (∀ P rest stored, query_params req !! py "path" = Some (P :: rest) → P ≠ [] →
     d !! (py "." ++ P) = Some (File stored) →
     do_GET d md_files req
     = {| disk := d;
          events := file_ok_headers ++ [wfile_write (text (universal_newlines stored))];
          finished := Ok () |})
  ∧ (query_params req !! py "path" = None →
     do_GET d md_files req = {| disk := d; events := [send_error 404]; finished := Ok () |})
  ∧ (∀ rest, query_params req !! py "path" = Some ([] :: rest) →
     do_GET d md_files req = {| disk := d; events := [send_error 404]; finished := Ok () |})
  ∧ (∀ P rest, query_params req !! py "path" = Some (P :: rest) → P ≠ [] →
     d !! (py "." ++ P) = Some Dir →
     do_GET d md_files req
     = {| disk := d; events := file_ok_headers; finished := Raise IsADirectoryError |}).
Proof.
  intros Hpath. split.
  { intros P rest content Hquery Hne Hfile. by eapply do_GET_file_run. }
  unfold do_GET. rewrite Hpath.
  rewrite !bool_decide_eq_false_2 by py_neq.
  rewrite bool_decide_eq_true_2 by done. cbn [orb].
  split; [|split].
  - by intros ->.
  - by intros rest ->.
  - intros P rest -> Hne Hdir. cbn [from_option id].
    rewrite (bool_decide_eq_false_2 (P = [])) by done.
    assert (exists_ d (py "." ++ P) = true) as -> by (apply exists_true; eauto).
    cbn [negb andb]. unfold read_text. by rewrite Hdir.
Qed.

(** X19. The editor page: on [/] and on [/role-editor-enhanced.html] the
    handler sends the status line 200 and the headers first and reads the page
    after; so with the page on disk its content is the body, and without it the
    handler raises [FileNotFoundError] with the status line already sent. *)
Theorem do_GET_editor_page d md_files req :
  parsed_path req = py "/" ∨ parsed_path req = py "/role-editor-enhanced.html" →
  (∀ content, d !! py "role-editor-enhanced.html" = Some (File content) →
     do_GET d md_files req
     = {| disk := d; events := page_ok_headers ++ [wfile_write (text content)];
          finished := Ok () |})
  ∧ (d !! py "role-editor-enhanced.html" = None →
     do_GET d md_files req
     = {| disk := d; events := page_ok_headers; finished := Raise FileNotFoundError |}).
Proof.
  intros Hpath. unfold do_GET.
  assert (bool_decide (parsed_path req = py "/")
          || bool_decide (parsed_path req = py "/role-editor-enhanced.html") = true) as ->.
  { destruct Hpath as [-> | ->].
    - by rewrite bool_decide_eq_true_2.
    - rewrite (bool_decide_eq_true_2 (_ = py "/role-editor-enhanced.html")) by done.
      by rewrite orb_true_r. }
  unfold serve_file, read_bytes. split.
  - by intros content ->.
  - by intros ->.
Qed.

Lemma do_POST_save_run d req m P content (old : str) :
  self_path req = py "/api/save" →
  data req = Ok (JObj m) →
  m !! py "path" = Some (JStr P) →
  m !! py "content" = Some (JStr content) →
  d !! (py "." ++ P) = Some (File old) →
  do_POST d req
  = if encodable content
    then {| disk := <[py "." ++ P := File content]> d; events := save_ok_events;
            finished := Ok () |}
    else {| disk := <[py "." ++ P := File []]> d; events := [];
            finished := Raise UnicodeEncodeError |}.
Proof.
  intros Hpath Hdata Hp Hc Hfile.
  unfold do_POST. rewrite Hpath, Hdata.
  rewrite bool_decide_eq_true_2 by done.
  cbn [mbind result_bind data_get as_str from_option id]. rewrite Hp, Hc.
  cbn [mbind result_bind data_get as_str from_option id].
  assert (exists_ d (py "." ++ P) = true) as -> by (apply exists_true; eauto).
  rewrite (bool_decide_eq_false_2 (py "." ++ P = [])) by done.
  cbn [negb andb]. unfold open_w. rewrite Hfile.
  destruct (encodable content); [|done].
  by rewrite insert_insert_eq.
Qed.

(** X20. A save of a string to an existing file.  When the string can be
    encoded as UTF-8 the text of that file becomes the content of the request,
    every other path keeps what it had, and the answer is 200 with the JSON
    success body.  When it cannot (it holds a surrogate) the file is left
    empty, [UnicodeEncodeError] is raised and no response is sent. *)
Theorem do_POST_save d req m P content (old : str) :
  self_path req = py "/api/save" →
  data req = Ok (JObj m) →
  m !! py "path" = Some (JStr P) →
  m !! py "content" = Some (JStr content) →
  d !! (py "." ++ P) = Some (File old) →
  (encodable content = true →
     do_POST d req
     = {| disk := <[py "." ++ P := File content]> d; events := save_ok_events;
          finished := Ok () |}
     ∧ (∀ q, q ≠ py "." ++ P → disk (do_POST d req) !! q = d !! q))
  ∧ (encodable content = false →
     do_POST d req
     = {| disk := <[py "." ++ P := File []]> d; events := [];
          finished := Raise UnicodeEncodeError |}).
Proof.
  intros Hpath Hdata Hp Hc Hfile.
  pose proof (do_POST_save_run d req m P content old Hpath Hdata Hp Hc Hfile) as Hrun.
  split; intros Henc; rewrite Henc in Hrun; [|done].
  split; [done|]. intros q Hq. rewrite Hrun. cbn [disk].
  by rewrite lookup_insert_ne.
Qed.

(** X21. What is saved is what is read, up to line ends: after a successful
    save of [content] at a non-empty path, [GET /api/file] for that path
    answers 200 with [content] as body, its carriage returns translated to
    line feeds as the file is read; so with exactly [content] when it has no
    carriage return.  The content is a string that UTF-8 can encode. *)
Theorem save_then_read d md_files req req' m P (rest : list str) content (old : str) :
  self_path req = py "/api/save" →
  data req = Ok (JObj m) →
  m !! py "path" = Some (JStr P) →
  m !! py "content" = Some (JStr content) →
  encodable content = true →
  d !! (py "." ++ P) = Some (File old) →
  P ≠ [] →
  parsed_path req' = py "/api/file" →
  query_params req' !! py "path" = Some (P :: rest) →
  do_GET (disk (do_POST d req)) md_files req'
  = {| disk := <[py "." ++ P := File content]> d;
       events := file_ok_headers ++ [wfile_write (text (universal_newlines content))];
       finished := Ok () |}
  ∧ (forallb (λ c, negb (c =? 13)%N) content = true →
     do_GET (disk (do_POST d req)) md_files req'
     = {| disk := <[py "." ++ P := File content]> d;
          events := file_ok_headers ++ [wfile_write (text content)];
          finished := Ok () |}).
Proof.
  intros Hpath Hdata Hp Hc Henc Hfile Hne Hpath' Hquery.
  rewrite (do_POST_save_run d req m P content old) by done.
  rewrite Henc. cbn [disk].
  assert (do_GET (<[py "." ++ P := File content]> d) md_files req'
          = {| disk := <[py "." ++ P := File content]> d;
               events := file_ok_headers
                         ++ [wfile_write (text (universal_newlines content))];
               finished := Ok () |}) as Hget.
  { eapply do_GET_file_run; try done. by rewrite lookup_insert_eq. }
  split; [done|].
  intros Hcr. rewrite Hget. by rewrite (universal_newlines_no_cr content Hcr).
Qed.

(** X22. A save whose [content] is not a string empties the file: the file is
    opened for writing, which truncates it, the write raises [TypeError], and
    no response is sent. *)
Theorem do_POST_content_not_str d req m P (v : json) (old : str) :
  self_path req = py "/api/save" →
  data req = Ok (JObj m) →
  m !! py "path" = Some (JStr P) →
  m !! py "content" = Some v →
  (∀ s, v ≠ JStr s) →
  d !! (py "." ++ P) = Some (File old) →
  do_POST d req
  = {| disk := <[py "." ++ P := File []]> d; events := []; finished := Raise TypeError |}.
Proof.
  intros Hpath Hdata Hp Hc Hv Hfile. unfold do_POST. rewrite Hpath, Hdata.
  rewrite bool_decide_eq_true_2 by done.
  cbn [mbind result_bind data_get as_str from_option id]. rewrite Hp, Hc.
  cbn [mbind result_bind data_get as_str from_option id].
  assert (exists_ d (py "." ++ P) = true) as -> by (apply exists_true; eauto).
  rewrite (bool_decide_eq_false_2 (py "." ++ P = [])) by done.
  cbn [negb andb]. unfold open_w. rewrite Hfile.
  destruct v; try done. by destruct (Hv s).
Qed.

(** X23. Requests that [do_POST] cannot serve raise, send nothing and leave
    the disk alone: a body that did not decode, a JSON value that is not an
    object ([AttributeError]), a [path] that is not a string ([TypeError]), a
    target that is a directory ([IsADirectoryError]). *)
Theorem do_POST_raises d req :
  self_path req = py "/api/save" →
  (∀ e, data req = Raise e →
     do_POST d req = {| disk := d; events := []; finished := Raise e |})
  ∧ (∀ v, data req = Ok v → (∀ m, v ≠ JObj m) →
     do_POST d req = {| disk := d; events := []; finished := Raise AttributeError |})
  ∧ (∀ m v, data req = Ok (JObj m) → m !! py "path" = Some v → (∀ s, v ≠ JStr s) →
     do_POST d req = {| disk := d; events := []; finished := Raise TypeError |})
  ∧ (∀ m P, data req = Ok (JObj m) → m !! py "path" = Some (JStr P) →
     d !! (py "." ++ P) = Some Dir →
     do_POST d req = {| disk := d; events := []; finished := Raise IsADirectoryError |}).
Proof.
  intros Hpath. unfold do_POST. rewrite Hpath.
  rewrite bool_decide_eq_true_2 by done.
  split; [|split; [|split]].
  - by intros e ->.
  - intros v -> Hv. destruct v; try done. by destruct (Hv m).
  - intros m v -> Hp Hv.
    cbn [mbind result_bind data_get as_str from_option id]. rewrite Hp.
    cbn [mbind result_bind data_get as_str from_option id].
    destruct v; try done. by destruct (Hv s).
  - intros m P -> Hp Hdir.
    cbn [mbind result_bind data_get as_str from_option id]. rewrite Hp.
    cbn [mbind result_bind data_get as_str from_option id].
    assert (exists_ d (py "." ++ P) = true) as -> by (apply exists_true; eauto).
    rewrite (bool_decide_eq_false_2 (py "." ++ P = [])) by done.
    cbn [negb andb]. unfold open_w. by rewrite Hdir.
Qed.

(** X24. What [do_POST] sends: nothing at all; or 404, with the disk as it
    was; or the 200 answer, and then an existing file has been written and the
    handler returns.  It never raises after a response has begun. *)
Theorem do_POST_responses d req :
  events (do_POST d req) = []
  ∨ (do_POST d req = {| disk := d; events := [send_error 404]; finished := Ok () |})
  ∨ (∃ file_path content,
       is_Some (d !! file_path)
       ∧ do_POST d req = {| disk := <[file_path := File content]> d;
                            events := save_ok_events; finished := Ok () |}).
Proof.
  unfold do_POST. case_bool_decide; [|by left].
  destruct (_ ≫= _) as [[file_path content]|e]; [|by left].
  destruct (negb _ && exists_ d file_path) eqn:Hex; [|right; by left].
  apply andb_true_iff in Hex as [_ Hex%exists_true].
  unfold open_w. destruct (d !! file_path) as [[old|]|] eqn:Hd; [| by left | by destruct Hex].
  destruct (as_str content) as [c|e]; [|by left].
  destruct (encodable c); [|by left].
  right. right. exists file_path, c. split; [eauto|].
  by rewrite insert_insert_eq.
Qed.

End Handlers.

(** ** Where the summary block goes *)

Section SummaryPlacement.
Implicit Types (s r c t : str).

Lemma startswith_app_prefix s t1 t2 :
  startswith s (t1 ++ t2) = true → startswith s t1 = true.
Proof.
  rewrite !startswith_spec. intros [r ->]. exists (t2 ++ r). by rewrite <- app_assoc.
Qed.

Lemma occurrences_cons t x s :
  occurrences t (x :: s) = (if startswith (x :: s) t then 1 else 0) + occurrences t s.
Proof. done. Qed.

Lemma summary_new_eq :
  confirmation_text ++ [newline] ++ py "13. WORKFLOW EVALUATION"
  = (newline :: (py "12. **SUMMARY & CONFIRMATION**:" ++ py "
    - After all questions, provide complete summary
    - Allow user to revise any answer
    - Confirm understanding before proceeding
")) ++ 49%N :: py "3. WORKFLOW EVALUATION".
Proof. by vm_compute. Qed.

(** Counting over one replaced occurrence, whatever follows it. *)
Lemma occurrences_marker_here s :
  occurrences (py "13. WORKFLOW EVALUATION") (py "13. WORKFLOW EVALUATION" ++ s)
  = S (occurrences (py "13. WORKFLOW EVALUATION") s).
Proof. vm_compute. reflexivity. Qed.

Lemma occurrences_marker_new s :
  occurrences (py "13. WORKFLOW EVALUATION")
    ((confirmation_text ++ [newline] ++ py "13. WORKFLOW EVALUATION") ++ s)
  = S (occurrences (py "13. WORKFLOW EVALUATION") s).
Proof. vm_compute. reflexivity. Qed.

Lemma occurrences_new_new s :
  occurrences (confirmation_text ++ [newline] ++ py "13. WORKFLOW EVALUATION")
    ((confirmation_text ++ [newline] ++ py "13. WORKFLOW EVALUATION") ++ s)
  = S (occurrences (confirmation_text ++ [newline] ++ py "13. WORKFLOW EVALUATION") s).
Proof. vm_compute. reflexivity. Qed.

(** Where no marker starts and no summary is, none starts after the
    replacement either, and no block with its marker. *)
Lemma summary_no_start x s :
  startswith (x :: s) (py "13. WORKFLOW EVALUATION") = false →
  str_in (py "SUMMARY & CONFIRMATION") s = false →
  startswith (x :: replace s (py "13. WORKFLOW EVALUATION")
                     (confirmation_text ++ [newline] ++ py "13. WORKFLOW EVALUATION"))
             (py "13. WORKFLOW EVALUATION") = false
  ∧ startswith (x :: replace s (py "13. WORKFLOW EVALUATION")
                     (confirmation_text ++ [newline] ++ py "13. WORKFLOW EVALUATION"))
               (confirmation_text ++ [newline] ++ py "13. WORKFLOW EVALUATION") = false.
Proof.
  intros Hsw Hsc.
  pose proof (replace_inserted
                (newline :: (py "12. **SUMMARY & CONFIRMATION**:" ++ py "
    - After all questions, provide complete summary
    - Allow user to revise any answer
    - Confirm understanding before proceeding
")) 49%N (py "3. WORKFLOW EVALUATION") s) as Hins.
  rewrite <- summary_new_eq, <- evaluation_marker_eq in Hins.
  set (r := replace s _ _) in *. clearbody r.
  split.
  - destruct (startswith (x :: r) (py "13. WORKFLOW EVALUATION")) eqn:E; [|done].
    rewrite evaluation_marker_eq in E, Hsw. cbn [startswith] in E, Hsw.
    apply andb_true_iff in E as [Hx E]. rewrite Hx in Hsw. cbn [andb] in Hsw.
    eapply inserted_startswith_back in E; [| exact Hins | by vm_compute].
    by rewrite Hsw in E.
  - destruct (startswith (x :: r) _) eqn:E; [exfalso|done].
    rewrite summary_new_eq in E. cbn [app startswith] in E.
    apply andb_true_iff in E as [_ E].
    rewrite <- app_assoc in E. apply startswith_app_prefix in E.
    eapply inserted_startswith_back in E; [| exact Hins | by vm_compute].
    apply startswith_spec in E as [rest ->].
    assert (str_in (py "SUMMARY & CONFIRMATION")
              (py "12. **SUMMARY & CONFIRMATION**:" ++ rest) = true) as Hin
      by (apply str_in_app_l; by vm_compute).
    by rewrite Hsc in Hin.
Qed.

Lemma summary_replace_counts s :
  str_in (py "SUMMARY & CONFIRMATION") s = false →
  occurrences (py "13. WORKFLOW EVALUATION")
    (replace s (py "13. WORKFLOW EVALUATION")
       (confirmation_text ++ [newline] ++ py "13. WORKFLOW EVALUATION"))
  = occurrences (py "13. WORKFLOW EVALUATION") s
  ∧ occurrences (confirmation_text ++ [newline] ++ py "13. WORKFLOW EVALUATION")
      (replace s (py "13. WORKFLOW EVALUATION")
         (confirmation_text ++ [newline] ++ py "13. WORKFLOW EVALUATION"))
    = occurrences (py "13. WORKFLOW EVALUATION") s.
Proof.
  remember (length s) as n eqn:Hn. revert s Hn.
  induction n as [n IH] using lt_wf_ind. intros s -> Hsc.
  destruct s as [|x s]; [done|].
  destruct (startswith (x :: s) (py "13. WORKFLOW EVALUATION")) eqn:Hsw.
  - apply startswith_spec in Hsw as [s2 Hs2]. rewrite Hs2 in *.
    rewrite replace_here by done.
    assert (str_in (py "SUMMARY & CONFIRMATION") s2 = false) as Hsc2.
    { destruct (str_in (py "SUMMARY & CONFIRMATION") s2) eqn:E; [|done].
      by rewrite (str_in_app_r _ _ (py "13. WORKFLOW EVALUATION") E) in Hsc. }
    destruct (IH (length s2)) with (s := s2) as [IH1 IH2]; [|done|done|].
    { rewrite length_app.
      assert (length (py "13. WORKFLOW EVALUATION") = 23) as -> by by vm_compute. lia. }
    rewrite occurrences_marker_new, occurrences_new_new, occurrences_marker_here.
    by rewrite IH1, IH2.
  - rewrite replace_next by done.
    assert (str_in (py "SUMMARY & CONFIRMATION") s = false) as Hsc2
      by by apply str_in_cons_false in Hsc.
    destruct (summary_no_start x s Hsw Hsc2) as [H1 H2].
    destruct (IH (length s)) with (s := s) as [IH1 IH2]; [simpl; lia|done|done|].
    rewrite !occurrences_cons, H1, H2, Hsw. by rewrite IH1, IH2.
Qed.

(** X25. The summary block in the result of [add_missing_elements], for a
    role body that mentions [INSTRUMENTATION] already (so that no item 8 is
    rewritten afterwards), when the content that reaches the block, the body
    after the three heading blocks, has no [SUMMARY & CONFIRMATION] yet.
    Without [WORKFLOW EVALUATION] in that content the result is that content
    with a line feed and the block appended.  With it, the result has as many
    numbered markers [13. WORKFLOW EVALUATION] as that content and each of
    them has the block and a line feed right in front of it.  In both cases
    [summary_confirmation] is recorded last. *)
Theorem add_missing_elements_summary_placement (role_content role_name : str) :
  str_in (py "INSTRUMENTATION") role_content = true →
  str_in (py "SUMMARY & CONFIRMATION") (headings_checked role_content role_name).1 = false →
  (add_missing_elements role_content role_name).2
  = (headings_checked role_content role_name).2 ++ [py "summary_confirmation"]
  ∧ (str_in (py "WORKFLOW EVALUATION") (headings_checked role_content role_name).1 = false →
     (add_missing_elements role_content role_name).1
     = (headings_checked role_content role_name).1 ++ [newline] ++ confirmation_text)
  ∧ (str_in (py "WORKFLOW EVALUATION") (headings_checked role_content role_name).1 = true →
     occurrences (py "13. WORKFLOW EVALUATION")
       (add_missing_elements role_content role_name).1
     = occurrences (py "13. WORKFLOW EVALUATION") (headings_checked role_content role_name).1
     ∧ occurrences (confirmation_text ++ [newline] ++ py "13. WORKFLOW EVALUATION")
         (add_missing_elements role_content role_name).1
       = occurrences (py "13. WORKFLOW EVALUATION")
           (headings_checked role_content role_name).1).
Proof.
  intros Hin Hsc.
  assert (str_in (py "INSTRUMENTATION") (sections_checked role_content role_name).1 = true)
    as Hkept.
  { unfold sections_checked.
    apply check_summary_confirmation_keeps; [by vm_compute|].
    apply check_example_usage_keeps, check_standard_operating_procedures_keeps.
    by apply check_interaction_pattern_keeps. }
  assert (add_missing_elements role_content role_name
          = check_summary_confirmation (headings_checked role_content role_name)) as ->.
  { rewrite add_missing_elements_eq.
    change (check_summary_confirmation (headings_checked role_content role_name))
      with (sections_checked role_content role_name).
    destruct (sections_checked role_content role_name) as [c e].
    unfold check_instrumentation. cbn [fst] in Hkept. by rewrite Hkept. }
  destruct (headings_checked role_content role_name) as [c e]. cbn [fst snd] in *.
  unfold check_summary_confirmation. rewrite Hsc. cbn [negb fst snd].
  split; [done|].
  split; intros ->; [done|].
  by apply summary_replace_counts.
Qed.

End SummaryPlacement.

(** ** The further statements at concrete inputs *)

Lemma add_missing_elements_headings_present_witness :
  (add_missing_elements (py "9. INSTRUMENTATION: metrics") (py "planner")).1
    = (sections_checked (py "9. INSTRUMENTATION: metrics") (py "planner")).1
  ∧ str_in (py "## Interactive Session Structure")
           (add_missing_elements (py "9. INSTRUMENTATION: metrics") (py "planner")).1 = true
  ∧ str_in (py "## Standard Operating Procedures")
           (add_missing_elements (py "9. INSTRUMENTATION: metrics") (py "planner")).1 = true
  ∧ str_in (py "## Example Usage")
           (add_missing_elements (py "9. INSTRUMENTATION: metrics") (py "planner")).1 = true.
Proof. apply add_missing_elements_headings_present. vm_compute. reflexivity. Defined.

Lemma add_missing_elements_nothing_recorded_witness :
  (add_missing_elements (py "## Interactive Session Structure
## Standard Operating Procedures
## Example Usage
12. SUMMARY & CONFIRMATION
8. INSTRUMENTATION") (py "coder")).1
  = py "## Interactive Session Structure
## Standard Operating Procedures
## Example Usage
12. SUMMARY & CONFIRMATION
8. INSTRUMENTATION".
Proof. apply add_missing_elements_nothing_recorded. vm_compute. reflexivity. Defined.

Lemma add_missing_elements_idempotent_when_kept_witness :
  (add_missing_elements (add_missing_elements (py "7. TESTING: unit tests
8. DEPLOYMENT: release steps
") (py "coder")).1 (py "coder")).1
  = (add_missing_elements (py "7. TESTING: unit tests
8. DEPLOYMENT: release steps
") (py "coder")).1.
Proof.
  apply add_missing_elements_idempotent_when_kept. right.
  repeat split; vm_compute; reflexivity.
Defined.

Lemma migrate_content_no_heading_witness :
  migrate_content (λ _, false) add_missing_elements (py "# Roles
No role is defined yet.")
  = Ok (py "# Roles
No role is defined yet.", []).
Proof. apply migrate_content_no_heading. vm_compute. reflexivity. Defined.

Lemma migrate_ai_roles_file_disk_witness :
  migrate_ai_roles_file (λ _, false) ∅ [py "Backup created"] = Raise FileNotFoundError
  ∧ ∃ text report,
      migrate_content (λ _, false) add_missing_elements
        (universal_newlines (py "# Roles" ++ [13; 10]%N)) = Ok (text, report)
      ∧ migrate_ai_roles_file (λ _, false)
          {[ base_path ++ py "/AI-Roles.md" := File (py "# Roles" ++ [13; 10]%N) ]} []
        = Ok (<[base_path ++ py "/AI-Roles.md" := File text]>
                {[ base_path ++ py "/AI-Roles.md" := File (py "# Roles" ++ [13; 10]%N) ]},
              [] ++ report).
Proof.
  split.
  - apply (migrate_ai_roles_file_disk (λ _, false) ∅ [py "Backup created"]).
    apply lookup_empty.
  - apply (migrate_ai_roles_file_disk (λ _, false)
             {[ base_path ++ py "/AI-Roles.md" := File (py "# Roles" ++ [13; 10]%N) ]} []).
    apply lookup_singleton_eq.
Defined.

Lemma update_claude_content_marks_witness :
  str_in (py "role-template.md")
    (update_claude_content (py "2025-01-31") (py "| VERSION | Current version | 1.2 |
# important-instruction-reminders")) = true
  ∧ str_in (py "## Version History")
      (update_claude_content (py "2025-01-31") (py "| VERSION | Current version | 1.2 |
# important-instruction-reminders")) = true.
Proof.
  destruct (update_claude_content_marks (py "2025-01-31")
              (py "| VERSION | Current version | 1.2 |
# important-instruction-reminders")) as [Hrow Hsection].
  split; [apply Hrow | apply Hsection]; vm_compute; reflexivity.
Defined.

Lemma migrate_command_files_disk_witness :
  ∃ d' report',
    migrate_command_files {[ command_path (py "coder") := File (py "# Coder
## Key Responsibilities
- write code") ]} [] = Ok (d', report')
    ∧ dom d' = dom ({[ command_path (py "coder") := File (py "# Coder
## Key Responsibilities
- write code") ]} : gmap (list N) node).
Proof.
  destruct (migrate_command_files_disk
              {[ command_path (py "coder") := File (py "# Coder
## Key Responsibilities
- write code") ]} []) as (d' & report' & Hrun & Hdom & _).
  - intros key ri _ Hdir.
    destruct (decide (command_path key = command_path (py "coder"))) as [Heq | Hne].
    + rewrite Heq, lookup_singleton_eq in Hdir. discriminate Hdir.
    + rewrite lookup_singleton_ne in Hdir by done. discriminate Hdir.
  - exists d', report'. split; [exact Hrun | exact Hdom].
Defined.

Lemma generate_report_spec_witness :
  generate_report (py "20250131_120000") (py "2025-01-31 12:00:00")
    (py "/opt/1000-AI-Roles/backup_20250131_115959") {[ base_path := Dir ]}
    [py "Backup created"]
  = Ok (<[report_path (py "20250131_120000")
          := File (report_content (py "2025-01-31 12:00:00")
                     (py "/opt/1000-AI-Roles/backup_20250131_115959")
                     [py "Backup created"])]> {[ base_path := Dir ]},
        report_path (py "20250131_120000")).
Proof.
  apply (generate_report_spec (py "20250131_120000") (py "2025-01-31 12:00:00")
           (py "/opt/1000-AI-Roles/backup_20250131_115959") {[ base_path := Dir ]}
           [py "Backup created"]).
  - apply lookup_singleton_eq.
  - rewrite lookup_singleton_ne; [discriminate|].
    intros H. vm_compute in H. discriminate H.
Defined.

Lemma file_type_bucket_witness :
  category_of (py ".claude/commands/planner.md") = py "Role Commands"
  ∧ category_of (py "architecture.md") = py "Project Files".
Proof.
  split.
  - apply (file_type_bucket (py ".claude/commands/planner.md")). vm_compute. reflexivity.
  - apply (file_type_bucket (py "architecture.md")). vm_compute. reflexivity.
Defined.

Lemma do_GET_file_outcomes_witness :
  do_GET {[ py "./README.md" := File (py "hello" ++ [13; 10]%N ++ py "there") ]} []
    {| self_path := py "/api/file?path=/README.md"; parsed_path := py "/api/file";
       query_params := {[ py "path" := [py "/README.md"] ]}; data := Raise TypeError |}
  = {| disk := {[ py "./README.md" := File (py "hello" ++ [13; 10]%N ++ py "there") ]};
       events := file_ok_headers
                 ++ [wfile_write (text (universal_newlines
                                          (py "hello" ++ [13; 10]%N ++ py "there")))];
       finished := Ok () |}
  ∧ do_GET {[ py "./docs" := Dir ]} []
    {| self_path := py "/api/file"; parsed_path := py "/api/file";
       query_params := ∅; data := Raise TypeError |}
  = {| disk := {[ py "./docs" := Dir ]}; events := [send_error 404]; finished := Ok () |}
  ∧ do_GET {[ py "./docs" := Dir ]} []
    {| self_path := py "/api/file?path=/docs"; parsed_path := py "/api/file";
       query_params := {[ py "path" := [py "/docs"] ]}; data := Raise TypeError |}
  = {| disk := {[ py "./docs" := Dir ]}; events := file_ok_headers;
       finished := Raise IsADirectoryError |}.
Proof.
  split; [|split].
  - match goal with |- do_GET ?d ?md ?r = _ =>
      destruct (do_GET_file_outcomes d md r eq_refl) as (Hfile & _) end.
    apply (Hfile (py "/README.md") []).
    + apply lookup_singleton_eq.
    + py_neq.
    + vm_compute. reflexivity.
  - match goal with |- do_GET ?d ?md ?r = _ =>
      destruct (do_GET_file_outcomes d md r eq_refl) as (_ & Hnone & _) end.
    apply Hnone. apply lookup_empty.
  - match goal with |- do_GET ?d ?md ?r = _ =>
      destruct (do_GET_file_outcomes d md r eq_refl) as (_ & _ & _ & Hdir) end.
    apply (Hdir (py "/docs") []).
    + apply lookup_singleton_eq.
    + py_neq.
    + vm_compute. reflexivity.
Defined.

Lemma do_GET_editor_page_witness :
  do_GET ∅ []
    {| self_path := py "/"; parsed_path := py "/";
       query_params := ∅; data := Raise TypeError |}
  = {| disk := ∅; events := page_ok_headers; finished := Raise FileNotFoundError |}.
Proof. apply do_GET_editor_page; [by left | apply lookup_empty]. Defined.

Lemma do_POST_save_witness :
  do_POST {[ py "./README.md" := File (py "hello") ]}
    {| self_path := py "/api/save"; parsed_path := py "/api/save"; query_params := ∅;
       data := Ok (JObj {[ py "path" := JStr (py "/README.md");
                           py "content" := JStr (py "new text") ]}) |}
  = {| disk := <[py "." ++ py "/README.md" := File (py "new text")]>
                 {[ py "./README.md" := File (py "hello") ]};
       events := save_ok_events; finished := Ok () |}
  ∧ do_POST {[ py "./README.md" := File (py "hello") ]}
    {| self_path := py "/api/save"; parsed_path := py "/api/save"; query_params := ∅;
       data := Ok (JObj {[ py "path" := JStr (py "/README.md");
                           py "content" := JStr [55296%N] ]}) |}
  = {| disk := <[py "." ++ py "/README.md" := File []]>
                 {[ py "./README.md" := File (py "hello") ]};
       events := []; finished := Raise UnicodeEncodeError |}.
Proof.
  split.
  - eapply (do_POST_save _ _ _ (py "/README.md") (py "new text")).
    + reflexivity.
    + reflexivity.
    + vm_compute. reflexivity.
    + vm_compute. reflexivity.
    + vm_compute. reflexivity.
    + vm_compute. reflexivity.
  - eapply (do_POST_save _ _ _ (py "/README.md") [55296%N]).
    + reflexivity.
    + reflexivity.
    + vm_compute. reflexivity.
    + vm_compute. reflexivity.
    + vm_compute. reflexivity.
    + vm_compute. reflexivity.
Defined.

Lemma save_then_read_witness :
  do_GET (disk (do_POST {[ py "./README.md" := File (py "hello") ]}
                  {| self_path := py "/api/save"; parsed_path := py "/api/save";
                     query_params := ∅;
                     data := Ok (JObj {[ py "path" := JStr (py "/README.md");
                                         py "content" := JStr (py "new text") ]}) |}))
    []
    {| self_path := py "/api/file?path=/README.md"; parsed_path := py "/api/file";
       query_params := {[ py "path" := [py "/README.md"] ]}; data := Raise TypeError |}
  = {| disk := <[py "." ++ py "/README.md" := File (py "new text")]>
                 {[ py "./README.md" := File (py "hello") ]};
       events := file_ok_headers ++ [wfile_write (text (py "new text"))];
       finished := Ok () |}.
Proof.
  eapply (save_then_read _ _ _ _ _ (py "/README.md") []).
  - reflexivity.
  - reflexivity.
  - vm_compute. reflexivity.
  - vm_compute. reflexivity.
  - vm_compute. reflexivity.
  - vm_compute. reflexivity.
  - py_neq.
  - reflexivity.
  - apply lookup_singleton_eq.
  - vm_compute. reflexivity.
Defined.

Lemma do_POST_content_not_str_witness :
  do_POST {[ py "./README.md" := File (py "hello") ]}
    {| self_path := py "/api/save"; parsed_path := py "/api/save"; query_params := ∅;
       data := Ok (JObj {[ py "path" := JStr (py "/README.md");
                           py "content" := JNum 5 ]}) |}
  = {| disk := <[py "." ++ py "/README.md" := File []]>
                 {[ py "./README.md" := File (py "hello") ]};
       events := []; finished := Raise TypeError |}.
Proof.
  eapply (do_POST_content_not_str _ _ _ _ (JNum 5)).
  - reflexivity.
  - reflexivity.
  - vm_compute. reflexivity.
  - vm_compute. reflexivity.
  - intros s Hs. discriminate Hs.
  - vm_compute. reflexivity.
Defined.

Lemma do_POST_raises_witness :
  do_POST {[ py "./docs" := Dir ]}
    {| self_path := py "/api/save"; parsed_path := py "/api/save"; query_params := ∅;
       data := Ok (JArr []) |}
  = {| disk := {[ py "./docs" := Dir ]}; events := []; finished := Raise AttributeError |}
  ∧ do_POST {[ py "./docs" := Dir ]}
    {| self_path := py "/api/save"; parsed_path := py "/api/save"; query_params := ∅;
       data := Ok (JObj {[ py "path" := JStr (py "/docs") ]}) |}
  = {| disk := {[ py "./docs" := Dir ]}; events := [];
       finished := Raise IsADirectoryError |}.
Proof.
  split.
  - match goal with |- do_POST ?d ?r = _ =>
      destruct (do_POST_raises d r eq_refl) as (_ & Hobj & _) end.
    apply (Hobj (JArr [])); [reflexivity|]. intros m Hm. discriminate Hm.
  - match goal with |- do_POST ?d ?r = _ =>
      destruct (do_POST_raises d r eq_refl) as (_ & _ & _ & Hdir) end.
    eapply Hdir; [reflexivity | apply lookup_singleton_eq | vm_compute; reflexivity].
Defined.

Lemma add_missing_elements_summary_placement_witness :
  occurrences (py "13. WORKFLOW EVALUATION")
    (add_missing_elements (py "8. INSTRUMENTATION: metrics
13. WORKFLOW EVALUATION: rate the session") (py "coder")).1 = 1
  ∧ occurrences (confirmation_text ++ [newline] ++ py "13. WORKFLOW EVALUATION")
      (add_missing_elements (py "8. INSTRUMENTATION: metrics
13. WORKFLOW EVALUATION: rate the session") (py "coder")).1 = 1.
Proof.
  destruct (add_missing_elements_summary_placement (py "8. INSTRUMENTATION: metrics
13. WORKFLOW EVALUATION: rate the session") (py "coder")) as (_ & _ & Hcount).
  - vm_compute. reflexivity.
  - vm_compute. reflexivity.
  - destruct Hcount as [H1 H2]; [vm_compute; reflexivity|].
    rewrite H1, H2. split; vm_compute; reflexivity.
Defined.

(** X26. For a body that already mentions [INSTRUMENTATION] the migration of
    a role is idempotent: a second application of [add_missing_elements]
    returns the body of the first. *)
Theorem add_missing_elements_idempotent_instrumented (role_content role_name : str) :
  str_in (py "INSTRUMENTATION") role_content = true →
  (add_missing_elements (add_missing_elements role_content role_name).1 role_name).1
  = (add_missing_elements role_content role_name).1.
Proof.
  intros Hin. apply add_missing_elements_idempotent_when_kept. left. left.
  unfold sections_checked.
  apply check_summary_confirmation_keeps; [by vm_compute|].
  apply check_example_usage_keeps, check_standard_operating_procedures_keeps.
  by apply check_interaction_pattern_keeps.
Qed.

Lemma add_missing_elements_idempotent_instrumented_witness :
  (add_missing_elements
     (add_missing_elements (py "8. Old item
9. INSTRUMENTATION: metrics") (py "architect")).1 (py "architect")).1
  = (add_missing_elements (py "8. Old item
9. INSTRUMENTATION: metrics") (py "architect")).1.
Proof.
  apply add_missing_elements_idempotent_instrumented. vm_compute. reflexivity.
Defined.
